(** * clickhouse_modules: reconciliation of ClickHouse roles, grants and users

    A shallow embedding of [clickhouse_grants.py] and [clickhouse_users.py].
    The two Ansible modules read the server through one object,
    [ch_connect], whose only method in use is [execute]; every statement is
    an f-string.  Strings are therefore kept as strings, the connection is an
    interface ([Gateway]) and the functions live in a state-and-exception
    monad over it. *)

From Stdlib Require Import String Ascii List ZArith Bool Arith Lia.
Import ListNotations.
Local Open Scope string_scope.
Local Open Scope list_scope.

(** ** Python strings *)

(** [str.upper] on the names made of ASCII characters: the letters a-z are
    raised, every other byte is left as it is.  On other names Python's
    [str.upper] follows Unicode and is not this function; what is stated of
    such names is stated for an arbitrary upper-casing function (see
    [check_grants_with] below). *)
Definition upper_ascii (a : ascii) : ascii :=
  let n := nat_of_ascii a in
  if Nat.leb 97 n && Nat.leb n 122 then ascii_of_nat (n - 32) else a.

Fixpoint upper (s : string) : string :=
  match s with
  | EmptyString => EmptyString
  | String a s' => String (upper_ascii a) (upper s')
  end.

(** [sep.join(ls)] *)
Definition join (sep : string) (ls : list string) : string := String.concat sep ls.

(** [x in ls] for a list of strings *)
Definition str_in (x : string) (ls : list string) : bool :=
  existsb (String.eqb x) ls.

Fixpoint rev_string (s acc : string) : string :=
  match s with
  | EmptyString => acc
  | String a s' => rev_string s' (String a acc)
  end.

(** [s.endswith(suffix)] *)
Definition ends_with (suffix s : string) : bool :=
  prefix (rev_string suffix EmptyString) (rev_string s EmptyString).

(** [sub in s] *)
Fixpoint contains (sub s : string) : bool :=
  prefix sub s ||
  match s with
  | EmptyString => false
  | String _ s' => contains sub s'
  end.

(** [enumerate(ls)] *)
Definition enumerate {A : Type} (ls : list A) : list (nat * A) :=
  combine (seq 0 (List.length ls)) ls.

(** Truth value of a list: [if ls:] *)
Definition truthy {A : Type} (ls : list A) : bool :=
  match ls with [] => false | _ :: _ => true end.

(** ** What the driver returns and raises *)

(** A cell of a result row, as far as the modules look at it: a count, a
    name, an array of names ([apply_to_list]) or NULL. *)
Inductive value : Type :=
| VInt (n : Z)
| VStr (s : string)
| VArray (l : list string)
| VNone.

Definition row : Type := list value.

(** [x in vs] where [x] is a [str] and [vs] holds cells: only an equal
    string cell makes it true. *)
Definition str_in_values (x : string) (vs : list value) : bool :=
  existsb (fun v => match v with VStr s => String.eqb x s | _ => false end) vs.

Inductive exn : Type :=
| ServerException (message : string)
| IndexError
| TypeError
| AttributeError
| NameError (name : string).

Inductive result (A : Type) : Type :=
| Ok (a : A)
| Raise (e : exn).
Arguments Ok {A} a.
Arguments Raise {A} e.

(** ** The connection

    [ch_connect.execute(query)] either returns rows or raises, and may change
    the server.  The server itself is not part of the repository. *)
Class Gateway : Type := {
  conn : Type;
  execute : string -> conn -> result (list row) * conn
}.

Section Monad.
Context {G : Gateway}.

Definition M (A : Type) : Type := conn -> result A * conn.

Definition ret {A : Type} (a : A) : M A := fun c => (Ok a, c).

Definition raise {A : Type} (e : exn) : M A := fun c => (Raise e, c).

Definition bind {A B : Type} (m : M A) (f : A -> M B) : M B :=
  fun c =>
    match m c with
    | (Ok a, c') => f a c'
    | (Raise e, c') => (Raise e, c')
    end.

(** [ls[0]] *)
Definition item0 {A : Type} (ls : list A) : M A :=
  match ls with
  | x :: _ => ret x
  | [] => raise IndexError
  end.

(** [[acc.append(r[0]) for r in rows]] *)
Fixpoint first_column (rows : list row) : M (list value) :=
  match rows with
  | [] => ret []
  | r :: rows' =>
      bind (item0 r) (fun v =>
      bind (first_column rows') (fun vs => ret (v :: vs)))
  end.

(** [[ch_connect.execute(query) for query in query_list]] *)
Fixpoint execute_all (query_list : list string) : M unit :=
  match query_list with
  | [] => ret tt
  | query :: rest => bind (execute query) (fun _ => execute_all rest)
  end.
End Monad.

Declare Scope monad_scope.
Delimit Scope monad_scope with monad.
Notation "x <- m ;; k" := (bind m (fun x => k))
  (at level 61, m at next level, right associativity) : monad_scope.
Notation "' pat <- m ;; k" := (bind m (fun x => match x with pat => k end))
  (at level 61, pat pattern, m at next level, right associativity) : monad_scope.
Local Open Scope monad_scope.

(** ** clickhouse_grants.py *)
Module ClickhouseGrants.

(** The dictionary [return_list]; a key that one function never sets is
    [None] there. *)
Record return_list : Type := {
  changed : bool;
  run_queries : list string;
  grant_roles : option (list string);
  revoke_grants : option bool;
  replace_grants : option bool;
  user_status : option (list value * bool);
  error : option string;
  failed : option bool;
  msg : option string
}.

(** [module.params] *)
Record module_params : Type := {
  p_address : string;
  p_secure_connect : bool;
  p_login_user : string;
  p_login_password : string;
  p_grantee_name : string;
  p_grants : list string;
  p_databases : list string;
  p_tables : list string;
  p_grant_roles : list string;
  p_init_roles : bool;
  p_revoke_grants : bool;
  p_replace_grants : bool;
  p_on_cluster : bool;
  p_cluster_name : string
}.

(** What [fail_json] is given: a literal, [to_native] of the [DB::Exception]
    part found in a server message, or [to_native] of another exception. *)
Inductive fail_msg : Type :=
| Msg (s : string)
| DbError (message : string)
| Native (e : exn).

(** How [main] ends. [exit_json_default] is [exit_json] of the initial
    [{"changed": False}]. *)
Inductive exit : Type :=
| fail_json (m : fail_msg)
| exit_json (result : return_list)
| exit_json_default.

(** The statements, as the f-strings build them. *)
Definition user_exists_query (grantee : string) : string :=
  "SELECT count() FROM system.users WHERE name = '" ++ grantee ++ "'".

Definition user_roles_query (grantee : string) : string :=
  "SELECT granted_role_name FROM system.role_grants WHERE user_name = '"
    ++ grantee ++ "';".

Definition revoke_role_query (role grantee : string) : string :=
  "REVOKE " ++ role ++ " from '" ++ grantee ++ "'".

Definition create_role_query (role : string) : string :=
  "CREATE ROLE IF NOT EXISTS " ++ role.

Definition grant_roles_replace_query (roles_list : list string) (grantee : string) : string :=
  "GRANT " ++ join ", " roles_list ++ " to '" ++ grantee ++ "' WITH REPLACE OPTION".

Definition grant_roles_query (roles_list : list string) (grantee : string) : string :=
  "GRANT " ++ join ", " roles_list ++ " to '" ++ grantee ++ "'".

Definition system_level_grants : list string :=
  ["CREATE FUNCTION"; "DROP FUNCTION"; "RELOAD DICTIONARY"; "KILL QUERY";
   "MYSQL"; "CLUSTER"].

Definition database_level_grants : list string :=
  ["CREATE DATABASE"; "DROP DATABASE"].

Definition table_level_grants : list string :=
  ["ALL"; "SELECT"; "SHOW"; "dictGet"; "INSERT"; "UPDATE"; "DELETE"; "ALTER";
   "ALTER TABLE"; "ALTER COLUMN"; "ALTER CONSTRAINT"; "ALTER INDEX";
   "ALTER VIEW"; "ALTER TTL"; "CREATE"; "CREATE TABLE"; "CREATE VIEW";
   "CREATE DICTIONARY"; "DROP"; "DROP TABLE"; "DROP VIEW"; "DROP DICTIONARY";
   "TRUNCATE"; "OPTIMIZE"].

Definition applicable_grants : list string :=
  system_level_grants ++ database_level_grants ++ table_level_grants.

(** The test of line 287: the grant is refused. *)
Definition not_applicable (grant : string) : bool :=
  negb (str_in (upper grant) applicable_grants) && negb (String.eqb grant "dictGet").

Definition grant_error (grant : string) : string :=
  upper grant ++ " not in applicable grants: " ++ join ", " applicable_grants ++ ".".

(** The loop of lines 285-290: the error of the first refused grant. *)
Fixpoint check_grants (grants_list : list string) : option string :=
  match grants_list with
  | [] => None
  | grant :: rest =>
      if not_applicable grant then Some (grant_error grant) else check_grants rest
  end.

Definition grant_query (grants_list : list string) (database table grantee : string)
           (replace_grants : bool) (db_idx tb_idx : nat) : string :=
  let sub_query :=
    if replace_grants && Nat.eqb db_idx 0 && Nat.eqb tb_idx 0
    then " WITH REPLACE OPTION" else "" in
  ("GRANT " ++ join ", " grants_list ++ " on " ++ database ++ "." ++ table
     ++ " to '" ++ grantee ++ "'") ++ sub_query.

Definition revoke_query (grants_list : list string) (database table grantee : string) : string :=
  "REVOKE " ++ join ", " grants_list ++ " on " ++ database ++ "." ++ table
    ++ " from '" ++ grantee ++ "'".

(** The nested loops of lines 292-300: [query_list] once they are done. *)
Definition grants_query_list (grantee : string) (grants_list databases tables : list string)
           (replace_grants revoke_grants : bool) : list string :=
  flat_map (fun '(db_idx, database) =>
    map (fun '(tb_idx, table) =>
      if negb revoke_grants
      then grant_query grants_list database table grantee replace_grants db_idx tb_idx
      else revoke_query grants_list database table grantee)
      (enumerate tables))
    (enumerate databases).

(** Lines 199-221 of [grant_roles_func]: [query_list] from the roles that
    [get_user_roles] has returned. *)
Definition grant_roles_query_list (grantee : string) (roles_list : list string)
           (roles_init replace_grants revoke_grants : bool)
           (user_roles : list value) (user_has_roles : bool) : list string :=
  if revoke_grants then
    map (fun role => revoke_role_query role grantee)
        (filter (fun role => str_in_values role user_roles) roles_list)
  else
    (if roles_init && negb user_has_roles
     then map create_role_query roles_list else [])
    ++ (if replace_grants then [grant_roles_replace_query roles_list grantee]
        else if negb user_has_roles then [grant_roles_query roles_list grantee]
        else []).

Section Code.
Context {G : Gateway}.

Definition ch_user_exists (grantee : string) : M bool :=
  rows <- execute (user_exists_query grantee) ;;
  r <- item0 rows ;;
  v <- item0 r ;;
  match v with
  | VInt n => ret (0 <? n)%Z
  | _ => raise TypeError
  end.

(** [module] is a local of [main]: reading it here raises [NameError]. *)
Definition get_user_roles (grantee : string) (roles_list : list string)
  : M (list value * bool) :=
  user_exists <- ch_user_exists grantee ;;
  if negb user_exists then raise (NameError "module")
  else
    rows <- execute (user_roles_query grantee) ;;
    user_roles <- first_column rows ;;
    ret (user_roles,
         forallb (fun role => str_in_values role user_roles) roles_list).

Definition grant_roles_func (grantee : string) (roles_list : list string)
           (roles_init replace_grants revoke_grants : bool) : M return_list :=
  '(user_roles, user_has_roles) <- get_user_roles grantee roles_list ;;
  let query_list :=
    grant_roles_query_list grantee roles_list roles_init replace_grants
                           revoke_grants user_roles user_has_roles in
  _ <- execute_all query_list ;;
  ret {| changed := truthy query_list;
         run_queries := query_list;
         grant_roles := Some roles_list;
         revoke_grants := Some revoke_grants;
         replace_grants := Some replace_grants;
         user_status :=
           if revoke_grants then None else Some (user_roles, user_has_roles);
         error := None;
         failed := None;
         msg := None |}.

Definition grants_func (grantee : string) (grants_list databases tables : list string)
           (replace_grants revoke_grants : bool) : M return_list :=
  match check_grants grants_list with
  | Some err =>
      ret {| changed := false; run_queries := [];
             grant_roles := None; revoke_grants := None; replace_grants := None;
             user_status := None;
             error := Some err; failed := Some true; msg := None |}
  | None =>
      let query_list :=
        grants_query_list grantee grants_list databases tables
                          replace_grants revoke_grants in
      _ <- execute_all query_list ;;
      ret {| changed := truthy query_list; run_queries := query_list;
             grant_roles := None; revoke_grants := None; replace_grants := None;
             user_status := None;
             error := None; failed := None;
             msg := if truthy query_list then Some "GRANTS EXECUTED" else None |}
  end.

(** [try: result = f(...) except ServerException ... except Exception ...]
    followed by [module.exit_json( **result)]. *)
Definition run_or_fail (f : M return_list) (c : conn) : exit * conn :=
  match f c with
  | (Ok result, c') => (exit_json result, c')
  | (Raise (ServerException message), c') => (fail_json (DbError message), c')
  | (Raise e, c') => (fail_json (Native e), c')
  end.

(** Lines 348-392 of [main]: the parameters are read and one of the two
    functions is run.  [on_cluster] and [cluster] are read and not used. *)
Definition make_checks_and_run (p : module_params) (c : conn) : exit * conn :=
  let grantee := p_grantee_name p in
  let grants_list := p_grants p in
  let databases := p_databases p in
  let tables := p_tables p in
  let roles_list := p_grant_roles p in
  let roles_init := p_init_roles p in
  let revoke_grants := p_revoke_grants p in
  let replace_grants := p_replace_grants p in
  if truthy roles_list && truthy grants_list then
    (fail_json (Msg "Only one of parameters 'grant_roles' OR 'grants' must be defined."), c)
  else if truthy roles_list then
    run_or_fail (grant_roles_func grantee roles_list roles_init replace_grants revoke_grants) c
  else if truthy grants_list then
    run_or_fail (grants_func grantee grants_list databases tables replace_grants revoke_grants) c
  else
    (fail_json (Msg "No any grants or roles are defined"), c).

(** [CHClient] is [False] when the driver could not be imported. *)
Definition main (CHClient check_mode : bool) (p : module_params) (c : conn) : exit * conn :=
  if negb CHClient then
    (fail_json (Msg "The clickhouse-driver module is required to install to host"), c)
  else if check_mode then (exit_json_default, c)
  else make_checks_and_run p c.
End Code.

End ClickhouseGrants.

(** ** clickhouse_users.py *)
Module ClickhouseUsers.

(** The dictionary [user_status]; the keys of a concern that was not asked
    for are [None]. *)
Record user_status : Type := {
  user_exists : bool;
  user_quotas : option (list value);
  user_has_quota : option bool;
  user_profiles : option (list value);
  user_has_profile : option bool;
  user_roles : option (list value);
  user_has_roles : option bool
}.

Record return_list : Type := {
  changed : bool;
  run_queries : list string;
  status : user_status
}.

(** What [delete_user] returns. *)
Record delete_result : Type := {
  del_changed : bool;
  del_query : option string;
  del_user_exists : bool
}.

Record module_params : Type := {
  p_address : string;
  p_login_user : string;
  p_login_password : string;
  p_user_name : string;
  p_user_password : string;
  p_user_quota : string;
  p_user_profile : string;
  p_user_roles : list string;
  p_user_state : string
}.

(** [UnsupportedState] is the message built from the set [states]. *)
Inductive fail_msg : Type :=
| Msg (s : string)
| DbError (message : string)
| Native (e : exn)
| UnsupportedState.

(** [uncaught] is an exception that leaves [main]: [delete_user] is called
    outside of any [try]. *)
Inductive exit : Type :=
| fail_json (m : fail_msg)
| exit_json (result : return_list)
| exit_json_deleted (result : delete_result)
| exit_json_default
| uncaught (e : exn).

Definition user_exists_query (user : string) : string :=
  "SELECT count() FROM system.users WHERE name = '" ++ user ++ "'".

Definition user_roles_query (user : string) : string :=
  "SELECT granted_role_name FROM system.role_grants WHERE user_name = '"
    ++ user ++ "';".

Definition user_profile_query (user : string) : string :=
  "SELECT inherit_profile FROM system.settings_profile_elements WHERE user_name = '"
    ++ user ++ "';".

Definition user_quotas_query (user : string) : string :=
  "SELECT name FROM system.quotas WHERE has(apply_to_list, '" ++ user ++ "');".

Definition quota_has_users_query (quota : string) : string :=
  "SELECT apply_to_list FROM system.quotas WHERE name = '" ++ quota ++ "';".

Definition user_query (user password : string) : string :=
  "CREATE USER " ++ user ++ " IDENTIFIED WITH sha256_password BY '" ++ password ++ "'".

Definition quota_query (quota : string) (quota_apply_users : list string) : string :=
  "ALTER QUOTA " ++ quota ++ " to " ++ join ", " quota_apply_users.

Definition profile_query (user profile : string) : string :=
  "ALTER USER " ++ user ++ " SETTINGS PROFILE " ++ profile.

Definition roles_query (roles : list string) (user : string) : string :=
  "GRANT " ++ join ", " roles ++ " to " ++ user.

Definition drop_query (user : string) : string := "DROP USER " ++ user.

Section Code.
Context {G : Gateway}.

Definition ch_user_exists (user : string) : M bool :=
  rows <- execute (user_exists_query user) ;;
  r <- item0 rows ;;
  v <- item0 r ;;
  match v with
  | VInt n => ret (0 <? n)%Z
  | _ => raise TypeError
  end.

Definition ch_user_roles (user : string) (roles : list string) : M (list value * bool) :=
  rows <- execute (user_roles_query user) ;;
  user_roles <- first_column rows ;;
  ret (user_roles, forallb (fun role => str_in_values role user_roles) roles).

Definition ch_user_profiles (user profile : string) : M (list value * bool) :=
  rows <- execute (user_profile_query user) ;;
  user_profiles <- first_column rows ;;
  ret (user_profiles, str_in_values profile user_profiles).

(** [quota_applied_users.append(user)]: the cell has to be a list. *)
Definition append_user (cell : value) (user : string) : M (list string) :=
  match cell with
  | VArray l => ret (l ++ [user])
  | _ => raise AttributeError
  end.

Definition ch_user_quotas (user quota : string) : M (list value * bool * list string) :=
  rows <- execute (user_quotas_query user) ;;
  user_quotas <- first_column rows ;;
  raw_quota_users <- execute (quota_has_users_query quota) ;;
  quota_applied_users <-
    (if truthy raw_quota_users
     then (r <- item0 raw_quota_users ;; item0 r)
     else ret (VArray [])) ;;
  let user_has_quota := str_in_values quota user_quotas in
  quota_applied_users <- append_user quota_applied_users user ;;
  ret (user_quotas, user_has_quota, quota_applied_users).

(** Lines 176-214 of [create_update_user]: [query_list] and [user_status]
    before anything is run. *)
Definition create_update_user_queries (user password : string) (roles : list string)
           (quota profile : string) : M (list string * user_status) :=
  user_exists <- ch_user_exists user ;;
  let query_list := if negb user_exists then [user_query user password] else [] in
  '(query_list, st_quotas, st_has_quota) <-
    (if negb (String.eqb quota "") then
       '(user_quotas, user_has_quota, quota_apply_users) <- ch_user_quotas user quota ;;
       ret (if negb user_has_quota
            then query_list ++ [quota_query quota quota_apply_users]
            else query_list,
            Some user_quotas, Some user_has_quota)
     else ret (query_list, None, None)) ;;
  '(query_list, st_profiles, st_has_profile) <-
    (if negb (String.eqb profile "") then
       '(user_profiles, user_has_profile) <- ch_user_profiles user profile ;;
       ret (if negb user_has_profile
            then query_list ++ [profile_query user profile]
            else query_list,
            Some user_profiles, Some user_has_profile)
     else ret (query_list, None, None)) ;;
  '(query_list, st_roles, st_has_roles) <-
    (if truthy roles then
       '(user_roles, user_has_roles) <- ch_user_roles user roles ;;
       ret (if negb user_has_roles
            then query_list ++ [roles_query roles user]
            else query_list,
            Some user_roles, Some user_has_roles)
     else ret (query_list, None, None)) ;;
  ret (query_list,
       {| user_exists := user_exists;
          user_quotas := st_quotas; user_has_quota := st_has_quota;
          user_profiles := st_profiles; user_has_profile := st_has_profile;
          user_roles := st_roles; user_has_roles := st_has_roles |}).

Definition create_update_user (user password : string) (roles : list string)
           (quota profile : string) : M return_list :=
  '(query_list, st) <- create_update_user_queries user password roles quota profile ;;
  _ <- execute_all query_list ;;
  ret {| changed := truthy query_list; run_queries := query_list; status := st |}.

Definition delete_user (user : string) : M delete_result :=
  user_exists <- ch_user_exists user ;;
  if negb user_exists then
    ret {| del_changed := false; del_query := None; del_user_exists := user_exists |}
  else
    _ <- execute (drop_query user) ;;
    ret {| del_changed := true; del_query := Some (drop_query user);
           del_user_exists := user_exists |}.

Definition main (CHClient check_mode : bool) (p : module_params) (c : conn) : exit * conn :=
  if negb CHClient then
    (fail_json (Msg "The clickhouse-driver module is required to install to host"), c)
  else if check_mode then (exit_json_default, c)
  else
    let user := p_user_name p in
    let password := p_user_password p in
    let roles := p_user_roles p in
    let quota := p_user_quota p in
    let profile := p_user_profile p in
    let state := p_user_state p in
    if String.eqb state "present" then
      match create_update_user user password roles quota profile c with
      | (Ok result, c') => (exit_json result, c')
      | (Raise (ServerException message), c') => (fail_json (DbError message), c')
      | (Raise e, c') => (fail_json (Native e), c')
      end
    else if String.eqb state "absent" then
      match delete_user user c with
      | (Ok result, c') => (exit_json_deleted result, c')
      | (Raise e, c') => (uncaught e, c')
      end
    else (fail_json UnsupportedState, c).
End Code.

End ClickhouseUsers.

(** ** A reference server

    The modules never see more of ClickHouse than the answers to five
    [SELECT]s and the success or failure of the statements they send.  This is
    a small model of the access-control tables behind them, used to run the
    modules on concrete inputs: it reads a statement back from its text and
    applies it. *)

(** A statement that only reads. *)
Definition is_select (query : string) : bool := prefix "SELECT " query.

Module Server.

Record state : Type := {
  users : list string;
  roles : list string;
  role_grants : list (string * string);      (* user_name, granted_role_name *)
  quotas : list (string * list string);       (* name, apply_to_list *)
  profiles : list (string * string);          (* user_name, inherit_profile *)
  privileges : list (string * string)         (* grantee, "privileges on scope" *)
}.

Inductive statement : Type :=
| SelectUserCount (name : string)
| SelectRoleGrants (user : string)
| SelectProfiles (user : string)
| SelectQuotasOf (user : string)
| SelectQuotaUsers (quota : string)
| CreateRole (role : string)
| CreateUser (user password : string)
| DropUser (user : string)
| AlterQuota (quota : string) (members : list string)
| AlterProfile (user profile : string)
| GrantRoles (granted : list string) (grantee : string) (replace : bool)
| RevokeRoles (revoked : list string) (grantee : string)
| GrantPrivileges (what scope grantee : string) (replace : bool)
| RevokePrivileges (what scope grantee : string).

Definition strip_prefix (p s : string) : option string :=
  if prefix p s
  then Some (substring (String.length p) (String.length s - String.length p) s)
  else None.

Definition strip_suffix (suffix s : string) : option string :=
  if ends_with suffix s
  then Some (substring 0 (String.length s - String.length suffix) s)
  else None.

Definition split_once (sep s : string) : option (string * string) :=
  match index 0 sep s with
  | Some i =>
      let j := i + String.length sep in
      Some (substring 0 i s, substring j (String.length s - j) s)
  | None => None
  end.

Fixpoint split_fuel (fuel : nat) (sep s : string) : list string :=
  match fuel with
  | O => [s]
  | S fuel' =>
      match split_once sep s with
      | Some (a, b) => a :: split_fuel fuel' sep b
      | None => [s]
      end
  end.

Definition split (sep s : string) : list string :=
  split_fuel (String.length s) sep s.

Definition unquote (s : string) : string :=
  match strip_prefix "'" s with
  | Some r => match strip_suffix "'" r with Some x => x | None => s end
  | None => s
  end.

Definition between (p suffix s : string) : option string :=
  match strip_prefix p s with
  | Some r => strip_suffix suffix r
  | None => None
  end.

Definition parse_grant (rest : string) : option statement :=
  let '(body, replace) :=
    match strip_suffix " WITH REPLACE OPTION" rest with
    | Some r => (r, true)
    | None => (rest, false)
    end in
  match split_once " to " body with
  | Some (what, grantee) =>
      match split_once " on " what with
      | Some (privs, scope) => Some (GrantPrivileges privs scope (unquote grantee) replace)
      | None => Some (GrantRoles (split ", " what) (unquote grantee) replace)
      end
  | None => None
  end.

Definition parse_revoke (rest : string) : option statement :=
  match split_once " from " rest with
  | Some (what, grantee) =>
      match split_once " on " what with
      | Some (privs, scope) => Some (RevokePrivileges privs scope (unquote grantee))
      | None => Some (RevokeRoles (split ", " what) (unquote grantee))
      end
  | None => None
  end.

Definition first_some {A : Type} (xs : list (option A)) : option A :=
  fold_right (fun x acc => match x with Some _ => x | None => acc end) None xs.

Definition parse (q : string) : option statement :=
  first_some
    [ option_map SelectUserCount
        (between "SELECT count() FROM system.users WHERE name = '" "'" q);
      option_map SelectRoleGrants
        (between "SELECT granted_role_name FROM system.role_grants WHERE user_name = '" "';" q);
      option_map SelectProfiles
        (between "SELECT inherit_profile FROM system.settings_profile_elements WHERE user_name = '" "';" q);
      option_map SelectQuotasOf
        (between "SELECT name FROM system.quotas WHERE has(apply_to_list, '" "');" q);
      option_map SelectQuotaUsers
        (between "SELECT apply_to_list FROM system.quotas WHERE name = '" "';" q);
      option_map CreateRole (strip_prefix "CREATE ROLE IF NOT EXISTS " q);
      match strip_prefix "CREATE USER " q with
      | Some r =>
          match split_once " IDENTIFIED WITH sha256_password BY " r with
          | Some (u, p) => Some (CreateUser u (unquote p))
          | None => None
          end
      | None => None
      end;
      option_map DropUser (strip_prefix "DROP USER " q);
      match strip_prefix "ALTER QUOTA " q with
      | Some r =>
          match split_once " to " r with
          | Some (quota, members) => Some (AlterQuota quota (split ", " members))
          | None => None
          end
      | None => None
      end;
      match strip_prefix "ALTER USER " q with
      | Some r =>
          match split_once " SETTINGS PROFILE " r with
          | Some (u, p) => Some (AlterProfile u p)
          | None => None
          end
      | None => None
      end;
      match strip_prefix "GRANT " q with Some r => parse_grant r | None => None end;
      match strip_prefix "REVOKE " q with Some r => parse_revoke r | None => None end ].

Definition is_principal (name : string) (s : state) : bool :=
  str_in name (users s) || str_in name (roles s).

Definition add_new {A : Type} (eqb : A -> A -> bool) (xs ys : list A) : list A :=
  fold_left (fun acc y => if existsb (eqb y) acc then acc else acc ++ [y]) ys xs.

Definition pair_eqb (a b : string * string) : bool :=
  String.eqb (fst a) (fst b) && String.eqb (snd a) (snd b).

Definition syntax_error : exn := ServerException "DB::Exception: Syntax error.".
Definition unknown (name : string) : exn :=
  ServerException ("DB::Exception: There is no `" ++ name ++ "` in `user directories`.").

(** The answer to a [SELECT]. *)
Definition answer (st : statement) (s : state) : result (list row) :=
  match st with
  | SelectUserCount name =>
      Ok [[VInt (Z.of_nat (List.length (filter (String.eqb name) (users s))))]]
  | SelectRoleGrants user =>
      Ok (map (fun g => [VStr (snd g)])
              (filter (fun g => String.eqb (fst g) user) (role_grants s)))
  | SelectProfiles user =>
      Ok (map (fun g => [VStr (snd g)])
              (filter (fun g => String.eqb (fst g) user) (profiles s)))
  | SelectQuotasOf user =>
      Ok (map (fun q => [VStr (fst q)])
              (filter (fun q => str_in user (snd q)) (quotas s)))
  | SelectQuotaUsers quota =>
      Ok (map (fun q => [VArray (snd q)])
              (filter (fun q => String.eqb (fst q) quota) (quotas s)))
  | _ => Raise syntax_error
  end.

Definition with_users (s : state) (us : list string) : state :=
  {| users := us; roles := roles s; role_grants := role_grants s;
     quotas := quotas s; profiles := profiles s; privileges := privileges s |}.

Definition with_roles (s : state) (rs : list string) : state :=
  {| users := users s; roles := rs; role_grants := role_grants s;
     quotas := quotas s; profiles := profiles s; privileges := privileges s |}.

Definition with_role_grants (s : state) (gs : list (string * string)) : state :=
  {| users := users s; roles := roles s; role_grants := gs;
     quotas := quotas s; profiles := profiles s; privileges := privileges s |}.

Definition with_quotas (s : state) (qs : list (string * list string)) : state :=
  {| users := users s; roles := roles s; role_grants := role_grants s;
     quotas := qs; profiles := profiles s; privileges := privileges s |}.

Definition with_profiles (s : state) (ps : list (string * string)) : state :=
  {| users := users s; roles := roles s; role_grants := role_grants s;
     quotas := quotas s; profiles := ps; privileges := privileges s |}.

Definition with_privileges (s : state) (ps : list (string * string)) : state :=
  {| users := users s; roles := roles s; role_grants := role_grants s;
     quotas := quotas s; profiles := profiles s; privileges := ps |}.

Definition not_of (grantee : string) (g : string * string) : bool :=
  negb (String.eqb (fst g) grantee).

(** The effect of a statement that writes. *)
Definition perform (st : statement) (s : state) : result (list row) * state :=
  match st with
  | CreateRole role =>
      (Ok [], with_roles s (add_new String.eqb (roles s) [role]))
  | CreateUser user _ =>
      if str_in user (users s)
      then (Raise (ServerException ("DB::Exception: user `" ++ user ++ "`: cannot insert because it already exists.")), s)
      else (Ok [], with_users s (users s ++ [user]))
  | DropUser user =>
      if str_in user (users s)
      then (Ok [],
            {| users := filter (fun u => negb (String.eqb u user)) (users s);
               roles := roles s;
               role_grants := filter (not_of user) (role_grants s);
               quotas := map (fun q => (fst q, filter (fun u => negb (String.eqb u user)) (snd q)))
                             (quotas s);
               profiles := filter (not_of user) (profiles s);
               privileges := filter (not_of user) (privileges s) |})
      else (Raise (unknown user), s)
  | AlterQuota quota members =>
      if str_in quota (map fst (quotas s)) && forallb (fun m => is_principal m s) members
      then (Ok [],
            with_quotas s (map (fun q => if String.eqb (fst q) quota
                                         then (quota, members) else q) (quotas s)))
      else (Raise (unknown quota), s)
  | AlterProfile user profile =>
      if str_in user (users s)
      then (Ok [], with_profiles s (filter (not_of user) (profiles s) ++ [(user, profile)]))
      else (Raise (unknown user), s)
  | GrantRoles granted grantee replace =>
      if is_principal grantee s && forallb (fun r => str_in r (roles s)) granted
      then (Ok [],
            with_role_grants s
              (add_new pair_eqb
                 (if replace then filter (not_of grantee) (role_grants s) else role_grants s)
                 (map (fun r => (grantee, r)) granted)))
      else (Raise (unknown grantee), s)
  | RevokeRoles revoked grantee =>
      if is_principal grantee s
      then (Ok [],
            with_role_grants s
              (filter (fun g => negb (String.eqb (fst g) grantee && str_in (snd g) revoked))
                      (role_grants s)))
      else (Raise (unknown grantee), s)
  | GrantPrivileges what scope grantee replace =>
      if is_principal grantee s
      then (Ok [],
            with_privileges s
              (add_new pair_eqb
                 (if replace then filter (not_of grantee) (privileges s) else privileges s)
                 [(grantee, (what ++ " on " ++ scope)%string)]))
      else (Raise (unknown grantee), s)
  | RevokePrivileges what scope grantee =>
      if is_principal grantee s
      then (Ok [],
            with_privileges s
              (filter (fun g => negb (pair_eqb g (grantee, (what ++ " on " ++ scope)%string)))
                      (privileges s)))
      else (Raise (unknown grantee), s)
  | _ => (Raise syntax_error, s)
  end.

Definition run (q : string) (s : state) : result (list row) * state :=
  match parse q with
  | None => (Raise syntax_error, s)
  | Some st => if is_select q then (answer st s, s) else perform st s
  end.

#[export] Instance gateway : Gateway := {| conn := state; execute := run |}.

(** One user [alice] holding role [reader]; roles [reader], [writer] and
    [reader_role]; a quota [q1] applied to [bob]; a profile [p1]. *)
Definition sample : state :=
  {| users := ["alice"; "bob"];
     roles := ["reader"; "writer"; "reader_role"];
     role_grants := [("alice", "reader")];
     quotas := [("q1", ["bob"])];
     profiles := [("bob", "p1")];
     privileges := [] |}.

End Server.

(** ** Vocabulary of the statements below *)

(** [enumerate] counting from [n]. *)
Definition enumerate_from {A : Type} (n : nat) (ls : list A) : list (nat * A) :=
  combine (seq n (List.length ls)) ls.

(** [GRANT <privs> on <database>.<table> to '<grantee>'], without clause. *)
Definition plain_grant (grantee : string) (grants_list : list string)
           (target : string * string) : string :=
  "GRANT " ++ join ", " grants_list ++ " on " ++ fst target ++ "." ++ snd target
    ++ " to '" ++ grantee ++ "'".

Definition plain_revoke (grantee : string) (grants_list : list string)
           (target : string * string) : string :=
  "REVOKE " ++ join ", " grants_list ++ " on " ++ fst target ++ "." ++ snd target
    ++ " from '" ++ grantee ++ "'".

(** A grant the check lets through. *)
Definition applicable (grant : string) : Prop :=
  In (upper grant) ClickhouseGrants.applicable_grants \/ grant = "dictGet".

(** The server answers a [SELECT] without changing. *)
Definition read_only (G : Gateway) : Prop :=
  forall query c, is_select query = true -> snd (execute query c) = c.

Section ServerBehaviour.
Context {G : Gateway}.

(** The server knows the grantee as a user and reports these roles for it,
    without changing. *)
Definition reports_roles (grantee : string) (c : conn) (user_roles : list value) : Prop :=
  ClickhouseGrants.get_user_roles grantee [] c = (Ok (user_roles, true), c).

(** What the statements of [grant_roles_func] do on a server, as far as
    [get_user_roles] can see: after a [GRANT] that succeeded the roles
    granted are reported; after a [REVOKE] that succeeded the role revoked
    is not reported and no new role is; a [CREATE ROLE] that succeeded
    leaves the grantee a user. *)
Definition grant_takes_effect (grantee : string) (roles_list : list string) : Prop :=
  forall c before rows c',
    reports_roles grantee c before ->
    execute (ClickhouseGrants.grant_roles_query roles_list grantee) c = (Ok rows, c') ->
    exists after,
      reports_roles grantee c' after
      /\ forall role, In role roles_list -> In (VStr role) after.

Definition revoke_takes_effect (grantee : string) (roles_list : list string) : Prop :=
  forall role c before rows c',
    In role roles_list ->
    reports_roles grantee c before ->
    execute (ClickhouseGrants.revoke_role_query role grantee) c = (Ok rows, c') ->
    exists after,
      reports_roles grantee c' after
      /\ ~ In (VStr role) after
      /\ forall v, In v after -> In v before.

Definition create_role_keeps_user (grantee : string) (roles_list : list string) : Prop :=
  forall role c before rows c',
    In role roles_list ->
    reports_roles grantee c before ->
    execute (ClickhouseGrants.create_role_query role) c = (Ok rows, c') ->
    exists after, reports_roles grantee c' after.
End ServerBehaviour.

(** The roles the server holds for a grantee. *)
Definition held (grantee : string) (c : Server.state) : list value :=
  map (fun g => VStr (snd g))
      (filter (fun g => String.eqb (fst g) grantee) (Server.role_grants c)).


(** ** The privilege check for any [str.upper]

    Python's [str.upper] follows Unicode, while [upper] above knows the
    ASCII letters only: the two agree on the names made of ASCII characters.
    The check of the privileges (lines 285-290) and the functions that
    depend on it are therefore given once more with the upper-casing
    function as a parameter, [str_upper]; with [upper] for it they are the
    definitions of [ClickhouseGrants]. *)

(** A name made of ASCII characters only. *)
Fixpoint is_ascii (s : string) : bool :=
  match s with
  | EmptyString => true
  | String a s' => Nat.ltb (nat_of_ascii a) 128 && is_ascii s'
  end.

Section AnyUpper.
Import ClickhouseGrants.
Variable str_upper : string -> string.

(** The test of line 287. *)
Definition not_applicable_with (grant : string) : bool :=
  negb (str_in (str_upper grant) applicable_grants) && negb (String.eqb grant "dictGet").

(** The message of line 288. *)
Definition grant_error_with (grant : string) : string :=
  str_upper grant ++ " not in applicable grants: " ++ join ", " applicable_grants ++ ".".

(** The loop of lines 285-290. *)
Fixpoint check_grants_with (grants_list : list string) : option string :=
  match grants_list with
  | [] => None
  | grant :: rest =>
      if not_applicable_with grant then Some (grant_error_with grant)
      else check_grants_with rest
  end.

Context {G : Gateway}.

Definition grants_func_with (grantee : string) (grants_list databases tables : list string)
           (replace_grants revoke_grants : bool) : M return_list :=
  match check_grants_with grants_list with
  | Some err =>
      ret {| changed := false; run_queries := [];
             grant_roles := None; revoke_grants := None; replace_grants := None;
             user_status := None;
             error := Some err; failed := Some true; msg := None |}
  | None =>
      let query_list :=
        grants_query_list grantee grants_list databases tables
                          replace_grants revoke_grants in
      _ <- execute_all query_list ;;
      ret {| changed := truthy query_list; run_queries := query_list;
             grant_roles := None; revoke_grants := None; replace_grants := None;
             user_status := None;
             error := None; failed := None;
             msg := if truthy query_list then Some "GRANTS EXECUTED" else None |}
  end.

Definition make_checks_and_run_with (p : module_params) (c : conn) : exit * conn :=
  let grantee := p_grantee_name p in
  let grants_list := p_grants p in
  let databases := p_databases p in
  let tables := p_tables p in
  let roles_list := p_grant_roles p in
  let roles_init := p_init_roles p in
  let revoke_grants := p_revoke_grants p in
  let replace_grants := p_replace_grants p in
  if truthy roles_list && truthy grants_list then
    (fail_json (Msg "Only one of parameters 'grant_roles' OR 'grants' must be defined."), c)
  else if truthy roles_list then
    run_or_fail (grant_roles_func grantee roles_list roles_init replace_grants revoke_grants) c
  else if truthy grants_list then
    run_or_fail (grants_func_with grantee grants_list databases tables
                                  replace_grants revoke_grants) c
  else
    (fail_json (Msg "No any grants or roles are defined"), c).

Definition main_with (CHClient check_mode : bool) (p : module_params) (c : conn)
  : exit * conn :=
  if negb CHClient then
    (fail_json (Msg "The clickhouse-driver module is required to install to host"), c)
  else if check_mode then (exit_json_default, c)
  else make_checks_and_run_with p c.
End AnyUpper.

(** A server that also keeps the list of the queries it was sent, in the
    order it was sent them. *)
Definition traced (G : Gateway) : Gateway :=
  {| conn := (@conn G * list string)%type;
     execute := fun query s =>
       let (r, c') := @execute G query (fst s) in (r, (c', snd s ++ [query])) |}.

(** A computation, given for every server, that sends nothing but [SELECT]s
    and is not influenced by the record kept of them. *)
Definition reads_only_family {A : Type} (f : forall G : Gateway, @M G A) : Prop :=
  forall (G : Gateway) (c : @conn G) (log : list string),
  exists reads,
    f (traced G) (c, log) = (fst (f G c), (snd (f G c), log ++ reads))
    /\ Forall (fun query => is_select query = true) reads.

(** After a [DROP USER] that succeeded the server no longer counts the user,
    and says so without changing. *)
Definition drop_takes_effect (G : Gateway) (user : string) : Prop :=
  forall c rows c',
    execute (ClickhouseUsers.drop_query user) c = (Ok rows, c') ->
    ClickhouseUsers.ch_user_exists user c' = (Ok false, c').

(** What [create_update_user] looks for, found satisfied by a server that
    answers without changing: the user is counted, the quota applies to the
    user, the profile is assigned, the roles are all held. *)
Section UserSettled.
Context {G : Gateway}.

Definition user_known (user : string) (c : conn) : Prop :=
  ClickhouseUsers.ch_user_exists user c = (Ok true, c).

Definition quota_applied (user quota : string) (c : conn) : Prop :=
  exists user_quotas members,
    ClickhouseUsers.ch_user_quotas user quota c = (Ok (user_quotas, true, members), c).

Definition profile_assigned (user profile : string) (c : conn) : Prop :=
  exists user_profiles,
    ClickhouseUsers.ch_user_profiles user profile c = (Ok (user_profiles, true), c).

Definition roles_held (user : string) (roles : list string) (c : conn) : Prop :=
  exists user_roles,
    ClickhouseUsers.ch_user_roles user roles c = (Ok (user_roles, true), c).

(** A statement that, whenever it succeeds, leaves the server in a state
    where [P] holds; and one that does not undo [P]. *)
Definition establishes (P : conn -> Prop) (statement : string) : Prop :=
  forall c rows c', execute statement c = (Ok rows, c') -> P c'.

Definition keeps (P : conn -> Prop) (statement : string) : Prop :=
  forall c rows c', execute statement c = (Ok rows, c') -> P c -> P c'.

Definition takes_effect (statement : string) (P Q1 Q2 Q3 : conn -> Prop) : Prop :=
  establishes P statement /\ keeps Q1 statement /\ keeps Q2 statement
  /\ keeps Q3 statement.
End UserSettled.

(** A server that cannot be reached: every query raises. *)
Definition unreachable : Gateway :=
  {| conn := unit;
     execute := fun _ c =>
       (Raise (ServerException "DB::Exception: Connection refused."), c) |}.

(** * Properties *)

(** ** Strings and lists *)

Lemma string_app_assoc (a b c : string) : ((a ++ b) ++ c = a ++ (b ++ c))%string.
Proof.
  induction a as [|x a IH]; simpl; [reflexivity | now rewrite IH].
Qed.

Lemma string_app_nil_r (a : string) : (a ++ "" = a)%string.
Proof.
  induction a as [|x a IH]; simpl; [reflexivity | now rewrite IH].
Qed.

Lemma rev_string_acc (s acc : string) :
  rev_string s acc = (rev_string s "" ++ acc)%string.
Proof.
  revert acc; induction s as [|x s IH]; intros acc; simpl.
  - reflexivity.
  - rewrite (IH (String x acc)), (IH (String x "")).
    now rewrite string_app_assoc.
Qed.

Lemma rev_string_app (a b : string) :
  rev_string (a ++ b) "" = (rev_string b "" ++ rev_string a "")%string.
Proof.
  induction a as [|x a IH]; simpl.
  - now rewrite string_app_nil_r.
  - rewrite rev_string_acc, IH, (rev_string_acc a (String x "")).
    now rewrite string_app_assoc.
Qed.

Lemma prefix_app (p s : string) : prefix p (p ++ s) = true.
Proof.
  induction p as [|x p IH]; simpl.
  - now destruct s.
  - destruct (ascii_dec x x) as [_|N]; [exact IH | now elim N].
Qed.

Lemma ends_with_app (suffix s : string) : ends_with suffix (s ++ suffix) = true.
Proof.
  unfold ends_with. rewrite rev_string_app. apply prefix_app.
Qed.

(** A statement that stops at the closing quote of the grantee does not end
    with the replace clause. *)
Lemma ends_with_quote (s : string) :
  ends_with " WITH REPLACE OPTION" (s ++ "'") = false.
Proof.
  unfold ends_with. rewrite rev_string_app. reflexivity.
Qed.

Lemma str_in_In (x : string) (ls : list string) : str_in x ls = true <-> In x ls.
Proof.
  unfold str_in. rewrite existsb_exists. split.
  - intros [y [Hy E]]. apply String.eqb_eq in E. now subst.
  - intros H. exists x. split; [assumption | apply String.eqb_refl].
Qed.

Lemma str_in_values_In (x : string) (vs : list value) :
  str_in_values x vs = true <-> In (VStr x) vs.
Proof.
  unfold str_in_values. rewrite existsb_exists. split.
  - intros [v [Hv E]]. destruct v; try discriminate.
    apply String.eqb_eq in E. now subst.
  - intros H. exists (VStr x). split; [assumption | apply String.eqb_refl].
Qed.

Lemma map_flat_map {A B C : Type} (f : B -> C) (g : A -> list B) (l : list A) :
  map f (flat_map g l) = flat_map (fun x => map f (g x)) l.
Proof.
  induction l as [|x l IH]; simpl; [reflexivity | now rewrite map_app, IH].
Qed.


Lemma enumerate_from_0 {A : Type} (ls : list A) : enumerate ls = enumerate_from 0 ls.
Proof. reflexivity. Qed.

Lemma enumerate_from_cons {A : Type} (n : nat) (x : A) (ls : list A) :
  enumerate_from n (x :: ls) = (n, x) :: enumerate_from (S n) ls.
Proof. reflexivity. Qed.

Lemma map_enumerate_from {A B : Type} (f : nat -> A -> B) (g : A -> B) (ls : list A) :
  forall n,
    (forall i x, n <= i -> f i x = g x) ->
    map (fun '(i, x) => f i x) (enumerate_from n ls) = map g ls.
Proof.
  induction ls as [|x ls IH]; intros n H; [reflexivity|].
  rewrite enumerate_from_cons. simpl. rewrite (H n x (le_n n)). f_equal.
  apply IH. intros i y Hi. apply H. lia.
Qed.

Lemma flat_map_enumerate_from {A B : Type} (f : nat -> A -> list B) (g : A -> list B)
      (ls : list A) :
  forall n,
    (forall i x, n <= i -> f i x = g x) ->
    flat_map (fun '(i, x) => f i x) (enumerate_from n ls) = flat_map g ls.
Proof.
  induction ls as [|x ls IH]; intros n H; [reflexivity|].
  rewrite enumerate_from_cons. simpl. rewrite (H n x (le_n n)). f_equal.
  apply IH. intros i y Hi. apply H. lia.
Qed.

Lemma list_prod_flat_map {A B : Type} (l : list A) (l' : list B) :
  list_prod l l' = flat_map (fun x => map (fun y => (x, y)) l') l.
Proof. induction l as [|x l IH]; simpl; [reflexivity | now rewrite IH]. Qed.

Lemma list_prod_nil_r {A B : Type} (l : list A) : list_prod l (@nil B) = [].
Proof. induction l; simpl; auto. Qed.

(** ** The privilege statements of [grants_func] *)

Section GrantStatements.
Import ClickhouseGrants.

Variables (grantee : string) (grants_list : list string).


Lemma grant_query_plain database table replace db_idx tb_idx :
  grant_query grants_list database table grantee replace db_idx tb_idx
  = (plain_grant grantee grants_list (database, table)
       ++ (if replace && Nat.eqb db_idx 0 && Nat.eqb tb_idx 0
           then " WITH REPLACE OPTION" else ""))%string.
Proof. reflexivity. Qed.

Lemma grant_query_later database table replace db_idx tb_idx :
  db_idx <> 0 \/ tb_idx <> 0 ->
  grant_query grants_list database table grantee replace db_idx tb_idx
  = plain_grant grantee grants_list (database, table).
Proof.
  intros H. rewrite grant_query_plain.
  replace (replace && Nat.eqb db_idx 0 && Nat.eqb tb_idx 0) with false.
  - apply string_app_nil_r.
  - destruct H as [H|H]; apply Nat.eqb_neq in H; rewrite H;
      destruct replace, (Nat.eqb db_idx 0), (Nat.eqb tb_idx 0); reflexivity.
Qed.

Lemma plain_grant_quote target : exists s, plain_grant grantee grants_list target = (s ++ "'")%string.
Proof.
  unfold plain_grant.
  exists ("GRANT " ++ join ", " grants_list ++ " on " ++ fst target ++ "."
            ++ snd target ++ " to '" ++ grantee)%string.
  now rewrite !string_app_assoc.
Qed.

Lemma plain_grant_no_clause target :
  ends_with " WITH REPLACE OPTION" (plain_grant grantee grants_list target) = false.
Proof.
  destruct (plain_grant_quote target) as [s ->]. apply ends_with_quote.
Qed.

(** The loops walk the cross product row by row; only the first statement
    can get the clause. *)
Lemma grants_query_list_grant databases tables replace :
  grants_query_list grantee grants_list databases tables replace false
  = match list_prod databases tables with
    | [] => []
    | first :: rest =>
        (plain_grant grantee grants_list first ++ (if replace then " WITH REPLACE OPTION" else ""))%string
          :: map (plain_grant grantee grants_list) rest
    end.
Proof.
  unfold grants_query_list. rewrite !enumerate_from_0. cbn [negb].
  destruct databases as [|d ds]; [reflexivity|].
  destruct tables as [|t ts].
  - rewrite list_prod_nil_r. rewrite enumerate_from_cons. cbn.
    induction (enumerate_from 1 ds) as [|[i x] l IH]; [reflexivity | exact IH].
  - match goal with |- flat_map ?f _ = _ => set (F := f) end.
    rewrite enumerate_from_cons. cbn [flat_map list_prod].
    unfold F at 1. cbv beta iota. rewrite enumerate_from_cons. cbn [map app].
    rewrite grant_query_plain. cbn [Nat.eqb fst snd].
    rewrite !andb_true_r. f_equal.
    rewrite map_app. f_equal.
    + rewrite map_map.
      apply (map_enumerate_from
               (fun i x => grant_query grants_list d x grantee replace 0 i)
               (fun x => plain_grant grantee grants_list (d, x))).
      intros i x Hi. apply grant_query_later. right. lia.
    + rewrite list_prod_flat_map, map_flat_map. subst F.
      apply (flat_map_enumerate_from
               (fun i x => map (fun '(tb_idx, table) =>
                                  grant_query grants_list x table grantee replace i tb_idx)
                               (enumerate_from 0 (t :: ts)))
               (fun x => map (plain_grant grantee grants_list) (map (fun y => (x, y)) (t :: ts)))).
      intros i x Hi. rewrite map_map.
      apply (map_enumerate_from
               (fun j y => grant_query grants_list x y grantee replace i j)
               (fun y => plain_grant grantee grants_list (x, y))).
      intros j y _. apply grant_query_later. left. lia.
Qed.

Lemma grants_query_list_revoke databases tables replace :
  grants_query_list grantee grants_list databases tables replace true
  = map (plain_revoke grantee grants_list) (list_prod databases tables).
Proof.
  unfold grants_query_list. rewrite !enumerate_from_0. cbn [negb].
  rewrite list_prod_flat_map, map_flat_map.
  apply (flat_map_enumerate_from
           (fun (i : nat) x => map (fun '(tb_idx, table) =>
                              revoke_query grants_list x table grantee)
                           (enumerate_from 0 tables))
           (fun x => map (plain_revoke grantee grants_list) (map (fun y => (x, y)) tables))).
  intros i x _. rewrite map_map.
  apply (map_enumerate_from
           (fun (j : nat) y => revoke_query grants_list x y grantee)
           (fun y => plain_revoke grantee grants_list (x, y))).
  reflexivity.
Qed.
End GrantStatements.

(** ** [grants_func] *)

Section GrantsFunc.
Import ClickhouseGrants.
Context {G : Gateway}.


Lemma not_applicable_false grant : not_applicable grant = false <-> applicable grant.
Proof.
  unfold not_applicable, applicable.
  rewrite andb_false_iff, !negb_false_iff, str_in_In, String.eqb_eq. tauto.
Qed.

Lemma not_applicable_true grant : not_applicable grant = true <-> ~ applicable grant.
Proof.
  rewrite <- not_applicable_false. destruct (not_applicable grant); split; congruence.
Qed.

Lemma check_grants_none grants_list :
  check_grants grants_list = None <-> Forall applicable grants_list.
Proof.
  induction grants_list as [|g l IH]; simpl.
  - split; [constructor | reflexivity].
  - destruct (not_applicable g) eqn:E.
    + split; [discriminate|]. intros H. inversion H; subst.
      apply not_applicable_true in E. contradiction.
    + rewrite IH. apply not_applicable_false in E.
      split; [now constructor | intros H; now inversion H].
Qed.

Lemma check_grants_first valid grant rest :
  Forall applicable valid -> ~ applicable grant ->
  check_grants (valid ++ grant :: rest) = Some (grant_error grant).
Proof.
  intros Hv Hg. induction Hv as [|g l Hgl _ IH]; simpl.
  - apply not_applicable_true in Hg. now rewrite Hg.
  - apply not_applicable_false in Hgl. now rewrite Hgl.
Qed.

(** With every grant applicable, [grants_func] sends [query_list] to the
    server and returns it. *)
Lemma grants_func_valid grantee grants_list databases tables replace revoke c :
  check_grants grants_list = None ->
  let query_list :=
    grants_query_list grantee grants_list databases tables replace revoke in
  grants_func grantee grants_list databases tables replace revoke c
  = match execute_all query_list c with
    | (Ok _, c') =>
        (Ok {| changed := truthy query_list; run_queries := query_list;
               grant_roles := None; revoke_grants := None; replace_grants := None;
               user_status := None; error := None; failed := None;
               msg := if truthy query_list then Some "GRANTS EXECUTED" else None |},
         c')
    | (Raise e, c') => (Raise e, c')
    end.
Proof.
  intros H. unfold grants_func. rewrite H. unfold bind, ret.
  destruct (execute_all _ c) as [[[]|e] c']; reflexivity.
Qed.

Lemma grants_func_returns grantee grants_list databases tables replace revoke c r c' :
  check_grants grants_list = None ->
  grants_func grantee grants_list databases tables replace revoke c = (Ok r, c') ->
  run_queries r = grants_query_list grantee grants_list databases tables replace revoke
  /\ changed r = truthy (run_queries r)
  /\ execute_all (run_queries r) c = (Ok tt, c').
Proof.
  intros H. rewrite grants_func_valid by assumption. cbv zeta.
  destruct (execute_all _ c) as [[[]|e] c1] eqn:E; intros Hr; inversion Hr; subst.
  cbn. auto.
Qed.
End GrantsFunc.

Section GrantsProperties.
Import ClickhouseGrants.
Context {G : Gateway}.

(** C2 — Replace single-shot.  A privilege grant (not a revoke) of
    applicable privileges over N >= 2 targets emits N statements; the first
    one is the statement for the first (database, table) pair of the
    row-major cross product, and a statement ends with
    [WITH REPLACE OPTION] exactly when [replace_grants] is set and it is
    that first statement.  With [replace_grants] unset none does. *)
Theorem replace_single_shot grantee grants_list databases tables replace c :
  check_grants grants_list = None ->
  2 <= List.length databases * List.length tables ->
  let query_list :=
    grants_query_list grantee grants_list databases tables replace false in
  (forall r c',
      grants_func grantee grants_list databases tables replace false c = (Ok r, c') ->
      run_queries r = query_list)
  /\ List.length query_list = List.length databases * List.length tables
  /\ (exists first rest,
         hd_error (list_prod databases tables) = Some first
         /\ query_list
            = (plain_grant grantee grants_list first
                 ++ (if replace then " WITH REPLACE OPTION" else ""))%string :: rest)
  /\ (forall i q,
         nth_error query_list i = Some q ->
         ends_with " WITH REPLACE OPTION" q = replace && Nat.eqb i 0).
Proof.
  intros Hvalid HN query_list.
  split.
  { intros r c' Hr. now apply grants_func_returns in Hr. }
  subst query_list. rewrite grants_query_list_grant.
  pose proof (length_prod databases tables) as Hlen.
  destruct (list_prod databases tables) as [|first rest] eqn:E.
  { simpl in Hlen. lia. }
  split; [simpl in *; rewrite length_map; lia|].
  split; [exists first, (map (plain_grant grantee grants_list) rest); auto|].
  intros [|i] q Hq; cbn [nth_error] in Hq.
  - assert (Hq' : (plain_grant grantee grants_list first
                     ++ (if replace then " WITH REPLACE OPTION" else ""))%string = q)
      by congruence.
    rewrite <- Hq'. destruct replace; cbn [andb Nat.eqb].
    + apply ends_with_app.
    + rewrite string_app_nil_r. apply plain_grant_no_clause.
  - apply nth_error_In, in_map_iff in Hq. destruct Hq as [x [<- _]].
    rewrite plain_grant_no_clause. now rewrite andb_false_r.
Qed.

(** C8 — Deterministic cross-product ordering.  A privilege grant of
    applicable privileges emits one [GRANT] per (database, table) pair, in
    the row-major order of the cross product, databases first: the first
    pair gets the statement with the replace clause when [replace_grants] is
    set, every other pair the plain statement.  For databases [d1, d2],
    tables [t1, t2], the privilege [select] and no replace these are the four
    statements d1.t1, d1.t2, d2.t1, d2.t2. *)
Theorem cross_product_order grantee c :
  (forall (grants_list databases tables : list string) (replace : bool),
      check_grants grants_list = None ->
      let query_list : list string :=
        match list_prod databases tables with
        | [] => []
        | first :: rest =>
            (plain_grant grantee grants_list first
               ++ (if replace then " WITH REPLACE OPTION" else ""))%string
              :: map (plain_grant grantee grants_list) rest
        end in
      grants_query_list grantee grants_list databases tables replace false = query_list
      /\ (replace = false ->
          query_list = map (plain_grant grantee grants_list) (list_prod databases tables))
      /\ List.length query_list = List.length databases * List.length tables
      /\ forall r c',
          grants_func grantee grants_list databases tables replace false c = (Ok r, c') ->
          run_queries r = query_list)
  /\ check_grants ["select"] = None
  /\ forall r c',
      grants_func grantee ["select"] ["d1"; "d2"] ["t1"; "t2"] false false c = (Ok r, c') ->
      run_queries r
      = [ "GRANT select on d1.t1 to '" ++ grantee ++ "'";
          "GRANT select on d1.t2 to '" ++ grantee ++ "'";
          "GRANT select on d2.t1 to '" ++ grantee ++ "'";
          "GRANT select on d2.t2 to '" ++ grantee ++ "'" ]%string.
Proof.
  split; [|split; [reflexivity|]].
  - intros grants_list databases tables replace Hvalid query_list.
    assert (Hshape := grants_query_list_grant grantee grants_list databases tables replace).
    fold query_list in Hshape.
    split; [exact Hshape|]. split; [|split].
    + intros ->. unfold query_list.
      destruct (list_prod databases tables) as [|first rest]; [reflexivity|].
      cbn [map]. now rewrite string_app_nil_r.
    + rewrite <- (length_prod databases tables). unfold query_list.
      destruct (list_prod databases tables) as [|first rest]; [reflexivity|].
      cbn [List.length]. now rewrite length_map.
    + intros r c' Hr. apply grants_func_returns in Hr; [|assumption].
      destruct Hr as [-> _]. exact Hshape.
  - intros r c' Hr. apply grants_func_returns in Hr; [|reflexivity].
    destruct Hr as [-> _]. rewrite grants_query_list_grant.
    cbn [list_prod map app]. now rewrite string_app_nil_r.
Qed.

(** With [upper] for [str.upper], the check and the functions over it are
    those of [ClickhouseGrants]. *)
Lemma check_grants_with_upper (grants_list : list string) :
  check_grants_with upper grants_list = check_grants grants_list.
Proof.
  induction grants_list as [|grant rest IH]; [reflexivity|].
  cbn [check_grants_with check_grants]. now rewrite IH.
Qed.

Lemma grants_func_with_upper grantee grants_list databases tables replace revoke c :
  grants_func_with upper grantee grants_list databases tables replace revoke c
  = grants_func grantee grants_list databases tables replace revoke c.
Proof.
  unfold grants_func_with, grants_func. now rewrite check_grants_with_upper.
Qed.

Lemma main_with_upper CHClient check_mode p c :
  main_with upper CHClient check_mode p c = main CHClient check_mode p c.
Proof.
  unfold main_with, main, make_checks_and_run_with, make_checks_and_run. cbv zeta.
  destruct (negb CHClient); [reflexivity|]. destruct check_mode; [reflexivity|].
  destruct (truthy (p_grant_roles p) && truthy (p_grants p)); [reflexivity|].
  destruct (truthy (p_grant_roles p)); [reflexivity|].
  destruct (truthy (p_grants p)); [|reflexivity].
  unfold run_or_fail. now rewrite grants_func_with_upper.
Qed.

(** The check stops at the first name it refuses. *)
Lemma check_grants_with_first (str_upper : string -> string) valid grant rest :
  Forall (fun g => In (str_upper g) applicable_grants \/ g = "dictGet") valid ->
  ~ In (str_upper grant) applicable_grants ->
  grant <> "dictGet" ->
  check_grants_with str_upper (valid ++ grant :: rest)
  = Some (grant_error_with str_upper grant).
Proof.
  intros Hv Hin Hd. induction Hv as [|g l Hg _ IH]; cbn [app check_grants_with].
  - unfold not_applicable_with.
    destruct (str_in (str_upper grant) applicable_grants) eqn:E.
    + apply str_in_In in E. contradiction.
    + destruct (String.eqb_spec grant "dictGet") as [->|_]; [contradiction|reflexivity].
  - unfold not_applicable_with.
    destruct Hg as [Hg| ->].
    + apply str_in_In in Hg. now rewrite Hg.
    + rewrite String.eqb_refl, andb_false_r. exact IH.
Qed.

(** C5 — Privilege validation aborts all mutation.  Whatever function
    [str.upper] is (it is a parameter here, [str_upper]): when the requested
    privileges hold a name whose upper-cased form is not in
    [applicable_grants] and which is not [dictGet], while every name before
    it is let through, [grants_func] returns at that name: the result is
    marked failed, its error names that privilege (upper-cased by
    [str.upper]) and the allowed list, it has no executed statement, and the
    server has not been called.  [main] exits with that result. *)
Theorem unsupported_privilege_aborts (str_upper : string -> string)
        grantee valid grant rest databases tables replace revoke c :
  Forall (fun g => In (str_upper g) applicable_grants \/ g = "dictGet") valid ->
  ~ In (str_upper grant) applicable_grants ->
  grant <> "dictGet" ->
  let result :=
    {| changed := false; run_queries := [];
       grant_roles := None; revoke_grants := None; replace_grants := None;
       user_status := None;
       error := Some (str_upper grant ++ " not in applicable grants: "
                        ++ join ", " applicable_grants ++ ".")%string;
       failed := Some true; msg := None |} in
  grants_func_with str_upper grantee (valid ++ grant :: rest) databases tables
                   replace revoke c
  = (Ok result, c)
  /\ forall p,
      p_grant_roles p = [] ->
      p_grants p = valid ++ grant :: rest ->
      main_with str_upper true false p c = (exit_json result, c).
Proof.
  intros Hvalid Hin Hdict result.
  assert (Hcheck : check_grants_with str_upper (valid ++ grant :: rest)
                   = Some (grant_error_with str_upper grant)).
  { now apply check_grants_with_first. }
  assert (Hf : forall g d t rp rv,
             grants_func_with str_upper g (valid ++ grant :: rest) d t rp rv c
             = (Ok result, c)).
  { intros. unfold grants_func_with. rewrite Hcheck. reflexivity. }
  split; [apply Hf|].
  intros p Hroles Hgrants. unfold main_with, make_checks_and_run_with, run_or_fail.
  cbv zeta. cbn [negb]. rewrite Hroles, Hgrants.
  replace (truthy (valid ++ grant :: rest)) with true by (now destruct valid).
  cbn [truthy andb]. now rewrite Hf.
Qed.

(** C6 — Exclusive-mode enforcement.  A call that reaches the dispatch of
    [main] (driver loaded, not a check-mode run) with both [grant_roles]
    and [grants] non-empty fails with the configuration error and leaves
    the server untouched; so does a call with both empty; with exactly one
    of them non-empty the matching reconciliation function is run. *)
Theorem exclusive_mode (p : module_params) c :
  (p_grant_roles p <> [] -> p_grants p <> [] ->
   main true false p c
   = (fail_json (Msg "Only one of parameters 'grant_roles' OR 'grants' must be defined."), c))
  /\ (p_grant_roles p = [] -> p_grants p = [] ->
      main true false p c = (fail_json (Msg "No any grants or roles are defined"), c))
  /\ (p_grant_roles p <> [] -> p_grants p = [] ->
      main true false p c
      = run_or_fail (grant_roles_func (p_grantee_name p) (p_grant_roles p) (p_init_roles p)
                                      (p_replace_grants p) (p_revoke_grants p)) c)
  /\ (p_grant_roles p = [] -> p_grants p <> [] ->
      main true false p c
      = run_or_fail (grants_func (p_grantee_name p) (p_grants p) (p_databases p)
                                 (p_tables p) (p_replace_grants p) (p_revoke_grants p)) c).
Proof.
  unfold main, make_checks_and_run. cbn [negb].
  destruct (p_grant_roles p) as [|role roles], (p_grants p) as [|grant grants];
    cbn [truthy andb]; repeat split; intros; congruence.
Qed.
End GrantsProperties.

(** ** [grant_roles_func] *)

Section GrantRolesFunc.
Import ClickhouseGrants.
Context {G : Gateway}.

Lemma item0_conn {A : Type} (ls : list A) c : snd (item0 ls c) = c.
Proof. now destruct ls. Qed.

Lemma first_column_conn rows c : snd (first_column rows c) = c.
Proof.
  induction rows as [|r rows IH]; [reflexivity|].
  simpl. unfold bind. destruct r as [|v r]; [reflexivity|]. simpl.
  destruct (first_column rows c) as [[vs|e] c'] eqn:E; simpl in *; now subst.
Qed.

Lemma first_column_any_conn rows c c' :
  fst (first_column rows c) = fst (first_column rows c').
Proof.
  induction rows as [|r rows IH]; [reflexivity|].
  simpl. unfold bind. destruct r as [|v r]; [reflexivity|]. simpl.
  destruct (first_column rows c) as [[vs|e] c1], (first_column rows c') as [[vs'|e'] c1'];
    simpl in *; congruence.
Qed.

(** What a successful [get_user_roles] has done. *)
Lemma get_user_roles_inv grantee roles_list c user_roles user_has_roles c1 :
  get_user_roles grantee roles_list c = (Ok (user_roles, user_has_roles), c1) ->
  exists c0 rows,
    ch_user_exists grantee c = (Ok true, c0)
    /\ execute (user_roles_query grantee) c0 = (Ok rows, c1)
    /\ first_column rows c1 = (Ok user_roles, c1)
    /\ user_has_roles = forallb (fun role => str_in_values role user_roles) roles_list.
Proof.
  unfold get_user_roles, bind at 1.
  destruct (ch_user_exists grantee c) as [[[|]|e] c0]; cbn [negb]; try discriminate.
  unfold bind.
  destruct (execute (user_roles_query grantee) c0) as [[rows|e] c1'] eqn:Ex;
    try discriminate.
  pose proof (first_column_conn rows c1') as Hc.
  destruct (first_column rows c1') as [[vs|e] c2] eqn:Ef; try discriminate.
  simpl in Hc. subst c2. unfold ret. intros H. inversion H; subst.
  exists c0, rows. auto.
Qed.

(** Once the roles are observed, [grant_roles_func] sends [query_list] and
    returns it. *)
Lemma grant_roles_func_observed grantee roles_list roles_init replace revoke c
      user_roles user_has_roles c1 :
  get_user_roles grantee roles_list c = (Ok (user_roles, user_has_roles), c1) ->
  let query_list :=
    grant_roles_query_list grantee roles_list roles_init replace revoke
                           user_roles user_has_roles in
  grant_roles_func grantee roles_list roles_init replace revoke c
  = match execute_all query_list c1 with
    | (Ok _, c2) =>
        (Ok {| changed := truthy query_list; run_queries := query_list;
               grant_roles := Some roles_list;
               revoke_grants := Some revoke;
               replace_grants := Some replace;
               user_status :=
                 if revoke then None else Some (user_roles, user_has_roles);
               error := None; failed := None; msg := None |},
         c2)
    | (Raise e, c2) => (Raise e, c2)
    end.
Proof.
  intros H. unfold grant_roles_func, bind at 1. rewrite H. unfold bind, ret.
  destruct (execute_all _ c1) as [[[]|e] c2]; reflexivity.
Qed.

Lemma grant_roles_func_returns grantee roles_list roles_init replace revoke c
      user_roles user_has_roles c1 r c2 :
  get_user_roles grantee roles_list c = (Ok (user_roles, user_has_roles), c1) ->
  grant_roles_func grantee roles_list roles_init replace revoke c = (Ok r, c2) ->
  run_queries r
  = grant_roles_query_list grantee roles_list roles_init replace revoke
                           user_roles user_has_roles
  /\ changed r = truthy (run_queries r)
  /\ execute_all (run_queries r) c1 = (Ok tt, c2).
Proof.
  intros H. rewrite (grant_roles_func_observed _ _ _ _ _ _ _ _ _ H). cbv zeta.
  destruct (execute_all _ c1) as [[[]|e] c3] eqn:E; intros Hr; inversion Hr; subst.
  cbn. auto.
Qed.

Lemma has_roles_false roles_list user_roles :
  forallb (fun role => str_in_values role user_roles) roles_list = false
  <-> exists role, In role roles_list /\ ~ In (VStr role) user_roles.
Proof.
  induction roles_list as [|x l IH]; simpl.
  - split; [discriminate | intros [r [[] _]]].
  - rewrite andb_false_iff, IH. split.
    + intros [H|[r [Hr Hn]]].
      * exists x. split; [now left|]. rewrite <- str_in_values_In. congruence.
      * exists r. split; [now right | assumption].
    + intros [r [[->|Hr] Hn]].
      * left. rewrite <- str_in_values_In in Hn.
        now destruct (str_in_values r user_roles).
      * right. now exists r.
Qed.

Lemma filter_create_roles roles_list :
  filter (prefix "CREATE ROLE IF NOT EXISTS ") (map create_role_query roles_list)
  = map create_role_query roles_list.
Proof.
  induction roles_list as [|x l IH]; [reflexivity|].
  cbn [map filter]. unfold create_role_query at 1. rewrite prefix_app. now rewrite IH.
Qed.

(** C7 — Role revoke semantics.  With [revoke_grants] set, the statements
    are one [REVOKE] per entry of the requested roles that is among the
    observed roles of the grantee, in the order requested; a requested role
    that is not held gives no statement and no error.  When none is held,
    nothing is sent and the result is unchanged with no executed
    statement. *)
Theorem role_revoke_semantics grantee roles_list roles_init replace c
        user_roles user_has_roles c1 :
  get_user_roles grantee roles_list c = (Ok (user_roles, user_has_roles), c1) ->
  let held := filter (fun role => str_in_values role user_roles) roles_list in
  let query_list := map (fun role => revoke_role_query role grantee) held in
  (forall role, In role held <-> In role roles_list /\ In (VStr role) user_roles)
  /\ grant_roles_func grantee roles_list roles_init replace true c
     = match execute_all query_list c1 with
       | (Ok _, c2) =>
           (Ok {| changed := truthy query_list; run_queries := query_list;
                  grant_roles := Some roles_list;
                  revoke_grants := Some true;
                  replace_grants := Some replace;
                  user_status := None;
                  error := None; failed := None; msg := None |},
            c2)
       | (Raise e, c2) => (Raise e, c2)
       end
  /\ ((forall role, In role roles_list -> ~ In (VStr role) user_roles) ->
      grant_roles_func grantee roles_list roles_init replace true c
      = (Ok {| changed := false; run_queries := [];
               grant_roles := Some roles_list;
               revoke_grants := Some true;
               replace_grants := Some replace;
               user_status := None;
               error := None; failed := None; msg := None |},
         c1)).
Proof.
  intros Hobs held query_list.
  assert (Hrun := grant_roles_func_observed grantee roles_list roles_init replace true
                    c user_roles user_has_roles c1 Hobs).
  cbv zeta in Hrun. unfold grant_roles_query_list in Hrun.
  split; [|split].
  - intros role. unfold held. rewrite filter_In, str_in_values_In. tauto.
  - exact Hrun.
  - intros Hnone. rewrite Hrun.
    replace (filter (fun role => str_in_values role user_roles) roles_list)
      with (@nil string); [reflexivity|].
    symmetry. clear Hrun Hobs held query_list.
    induction roles_list as [|x l IH]; [reflexivity|]. cbn [filter].
    destruct (str_in_values x user_roles) eqn:E.
    + apply str_in_values_In in E. elim (Hnone x (or_introl eq_refl) E).
    + apply IH. intros role Hr. apply Hnone. now right.
Qed.

(** C3, as the code has it — CreateRole gating.  Without [revoke_grants],
    the [CREATE ROLE IF NOT EXISTS] statements are emitted when
    [roles_init] is set and some requested role is not held, and then there
    is one for every requested role, held or not, in the order requested,
    before the [GRANT]; otherwise there is none. *)
Theorem create_role_for_every_role grantee roles_list roles_init replace c
        user_roles user_has_roles c1 :
  get_user_roles grantee roles_list c = (Ok (user_roles, user_has_roles), c1) ->
  let query_list :=
    grant_roles_query_list grantee roles_list roles_init replace false
                           user_roles user_has_roles in
  (user_has_roles = false
   <-> exists role, In role roles_list /\ ~ In (VStr role) user_roles)
  /\ filter (prefix "CREATE ROLE IF NOT EXISTS ") query_list
     = (if roles_init && negb user_has_roles
        then map create_role_query roles_list else [])
  /\ (roles_init = true -> user_has_roles = false ->
      exists grant, query_list = map create_role_query roles_list ++ [grant])
  /\ (forall r c2,
         grant_roles_func grantee roles_list roles_init replace false c = (Ok r, c2) ->
         run_queries r = query_list).
Proof.
  intros Hobs query_list.
  destruct (get_user_roles_inv _ _ _ _ _ _ Hobs) as [c0 [rows [_ [_ [_ Hhas]]]]].
  split; [rewrite Hhas; apply has_roles_false|].
  split; [|split].
  - unfold query_list, grant_roles_query_list.
    rewrite filter_app.
    replace (filter (prefix "CREATE ROLE IF NOT EXISTS ")
                    (if replace then [grant_roles_replace_query roles_list grantee]
                     else if negb user_has_roles
                          then [grant_roles_query roles_list grantee] else []))
      with (@nil string)
      by (destruct replace, user_has_roles; reflexivity).
    rewrite app_nil_r.
    destruct (roles_init && negb user_has_roles); [apply filter_create_roles | reflexivity].
  - intros -> ->. unfold query_list, grant_roles_query_list. cbn [andb negb].
    destruct replace; eexists; reflexivity.
  - intros r c2 Hr.
    now destruct (grant_roles_func_returns _ _ _ _ _ _ _ _ _ _ _ Hobs Hr) as [-> _].
Qed.
End GrantRolesFunc.

(** ** [create_update_user] *)


Lemma run_eq {G : Gateway} {A : Type} (m : M A) (c : conn) (a : A) :
  fst (m c) = Ok a -> snd (m c) = c -> m c = (Ok a, c).
Proof. destruct (m c) as [x c']. simpl. now intros -> ->. Qed.

Ltac observe_step := cbv beta iota; cbn [negb andb truthy].

Section CreateUpdateUser.
Import ClickhouseUsers.
Context {G : Gateway}.
Hypothesis RO : read_only G.

Lemma users_first_column_conn rows c : snd (first_column rows c) = c.
Proof. apply first_column_conn. Qed.

Lemma ch_user_exists_conn user c : snd (ch_user_exists user c) = c.
Proof.
  unfold ch_user_exists, bind.
  pose proof (RO (user_exists_query user) c eq_refl) as H.
  destruct (execute (user_exists_query user) c) as [[rows|e] c']; simpl in H; subst;
    [|reflexivity].
  destruct rows as [|[|[] r] rows]; reflexivity.
Qed.

Lemma ch_user_roles_conn user roles c : snd (ch_user_roles user roles c) = c.
Proof.
  unfold ch_user_roles, bind.
  pose proof (RO (user_roles_query user) c eq_refl) as H.
  destruct (execute (user_roles_query user) c) as [[rows|e] c']; simpl in H; subst;
    [|reflexivity].
  pose proof (first_column_conn rows c) as H.
  destruct (first_column rows c) as [[vs|e] c']; simpl in H; subst; reflexivity.
Qed.

Lemma ch_user_profiles_conn user profile c : snd (ch_user_profiles user profile c) = c.
Proof.
  unfold ch_user_profiles, bind.
  pose proof (RO (user_profile_query user) c eq_refl) as H.
  destruct (execute (user_profile_query user) c) as [[rows|e] c']; simpl in H; subst;
    [|reflexivity].
  pose proof (first_column_conn rows c) as H.
  destruct (first_column rows c) as [[vs|e] c']; simpl in H; subst; reflexivity.
Qed.

Lemma ch_user_quotas_conn user quota c : snd (ch_user_quotas user quota c) = c.
Proof.
  unfold ch_user_quotas, bind.
  pose proof (RO (user_quotas_query user) c eq_refl) as H.
  destruct (execute (user_quotas_query user) c) as [[rows|e] c']; simpl in H; subst;
    [|reflexivity].
  pose proof (first_column_conn rows c) as H.
  destruct (first_column rows c) as [[vs|e] c']; simpl in H; subst; [|reflexivity].
  pose proof (RO (quota_has_users_query quota) c eq_refl) as H.
  destruct (execute (quota_has_users_query quota) c) as [[raw|e] c']; simpl in H; subst;
    [|reflexivity].
  destruct raw as [|[|[] r] raw]; reflexivity.
Qed.

(** [ch_user_quotas] from the two answers of the server: the quotas that
    apply to the user, and the [apply_to_list] of the named quota. *)
Lemma ch_user_quotas_answers user quota c rows user_quotas raw members :
  fst (execute (user_quotas_query user) c) = Ok rows ->
  fst (first_column rows c) = Ok user_quotas ->
  fst (execute (quota_has_users_query quota) c) = Ok raw ->
  (raw = [] /\ members = []
   \/ exists cells more, raw = (VArray members :: cells) :: more) ->
  ch_user_quotas user quota c
  = (Ok (user_quotas, str_in_values quota user_quotas, members ++ [user]), c).
Proof.
  intros H1 H2 H3 H4. apply run_eq; [|apply ch_user_quotas_conn].
  unfold ch_user_quotas, bind.
  pose proof (RO (user_quotas_query user) c eq_refl) as E1.
  destruct (execute (user_quotas_query user) c) as [[rows'|e] c1]; simpl in *;
    [|discriminate].
  injection H1 as ->. subst c1.
  pose proof (first_column_conn rows c) as E2.
  destruct (first_column rows c) as [[vs|e] c1]; simpl in *; [|discriminate].
  injection H2 as ->. subst c1.
  pose proof (RO (quota_has_users_query quota) c eq_refl) as E3.
  destruct (execute (quota_has_users_query quota) c) as [[raw'|e] c1]; simpl in *;
    [|discriminate].
  injection H3 as ->. subst c1.
  destruct H4 as [[-> ->]|[cells [more ->]]]; reflexivity.
Qed.

(** The four parts of [query_list], each decided by its own observation. *)
Lemma create_update_user_queries_parts user password roles quota profile c
      ex uq hq members up hp ur hr :
  fst (ch_user_exists user c) = Ok ex ->
  (quota <> "" -> fst (ch_user_quotas user quota c) = Ok (uq, hq, members)) ->
  (profile <> "" -> fst (ch_user_profiles user profile c) = Ok (up, hp)) ->
  (roles <> [] -> fst (ch_user_roles user roles c) = Ok (ur, hr)) ->
  create_update_user_queries user password roles quota profile c
  = (Ok ((if ex then [] else [user_query user password])
           ++ (if negb (String.eqb quota "") && negb hq
               then [quota_query quota members] else [])
           ++ (if negb (String.eqb profile "") && negb hp
               then [profile_query user profile] else [])
           ++ (if truthy roles && negb hr then [roles_query roles user] else []),
         {| user_exists := ex;
            user_quotas := if String.eqb quota "" then None else Some uq;
            user_has_quota := if String.eqb quota "" then None else Some hq;
            user_profiles := if String.eqb profile "" then None else Some up;
            user_has_profile := if String.eqb profile "" then None else Some hp;
            user_roles := if truthy roles then Some ur else None;
            user_has_roles := if truthy roles then Some hr else None |}),
     c).
Proof.
  intros He Hq Hp Hr.
  unfold create_update_user_queries, bind, ret.
  rewrite (run_eq _ _ _ He (ch_user_exists_conn user c)). observe_step.
  destruct (String.eqb_spec quota "") as [Eq|Nq]; observe_step;
    [|rewrite (run_eq _ _ _ (Hq Nq) (ch_user_quotas_conn user quota c)); observe_step];
    (destruct (String.eqb_spec profile "") as [Ep|Np]; observe_step;
     [|rewrite (run_eq _ _ _ (Hp Np) (ch_user_profiles_conn user profile c));
       observe_step]);
    (destruct roles as [|role roles']; observe_step;
     [|rewrite (run_eq _ _ _ (Hr ltac:(discriminate)) (ch_user_roles_conn user _ c));
       observe_step]);
    destruct ex, hq, hp, hr; reflexivity.
Qed.

(** [create_update_user] sends the statements it has collected, in order. *)
Lemma create_update_user_runs user password roles quota profile c query_list st c1 :
  create_update_user_queries user password roles quota profile c
  = (Ok (query_list, st), c1) ->
  create_update_user user password roles quota profile c
  = match execute_all query_list c1 with
    | (Ok _, c2) =>
        (Ok {| changed := truthy query_list; run_queries := query_list; status := st |},
         c2)
    | (Raise e, c2) => (Raise e, c2)
    end.
Proof.
  intros H. unfold create_update_user, bind at 1. rewrite H. unfold bind, ret.
  destruct (execute_all query_list c1) as [[[]|e] c2]; reflexivity.
Qed.
End CreateUpdateUser.

Section UsersProperties.
Import ClickhouseUsers.
Context {G : Gateway}.
Hypothesis RO : read_only G.

(** C9 — User-lifecycle composition.  Against a server that answers its
    [SELECT]s without changing: each of the four statements of
    [create_update_user] is decided by its own observation alone (the user
    exists; the quota is asked for and not applied; the profile is asked
    for and not assigned; roles are asked for and not all held).  For a
    user that does not exist and holds nothing, with a quota, a profile and
    roles asked for, the statements are CREATE USER, ALTER QUOTA, ALTER
    USER ... SETTINGS PROFILE, GRANT, in that order; for a user that exists
    and lacks only the quota the only statement is ALTER QUOTA.  The
    statements are then sent in that order and returned; this is what
    [main] runs for the state [present]. *)
Theorem user_lifecycle_composition user password roles quota profile c :
  (forall ex uq hq members up hp ur hr,
      fst (ch_user_exists user c) = Ok ex ->
      (quota <> "" -> fst (ch_user_quotas user quota c) = Ok (uq, hq, members)) ->
      (profile <> "" -> fst (ch_user_profiles user profile c) = Ok (up, hp)) ->
      (roles <> [] -> fst (ch_user_roles user roles c) = Ok (ur, hr)) ->
      exists st,
        create_update_user_queries user password roles quota profile c
        = (Ok ((if ex then [] else [user_query user password])
                 ++ (if negb (String.eqb quota "") && negb hq
                     then [quota_query quota members] else [])
                 ++ (if negb (String.eqb profile "") && negb hp
                     then [profile_query user profile] else [])
                 ++ (if truthy roles && negb hr then [roles_query roles user] else []),
               st), c))
  /\ (forall uq members up ur,
         quota <> "" -> profile <> "" -> roles <> [] ->
         fst (ch_user_exists user c) = Ok false ->
         fst (ch_user_quotas user quota c) = Ok (uq, false, members) ->
         fst (ch_user_profiles user profile c) = Ok (up, false) ->
         fst (ch_user_roles user roles c) = Ok (ur, false) ->
         exists st,
           create_update_user_queries user password roles quota profile c
           = (Ok ([user_query user password; quota_query quota members;
                   profile_query user profile; roles_query roles user], st), c))
  /\ (forall uq members up ur,
         quota <> "" ->
         fst (ch_user_exists user c) = Ok true ->
         fst (ch_user_quotas user quota c) = Ok (uq, false, members) ->
         (profile <> "" -> fst (ch_user_profiles user profile c) = Ok (up, true)) ->
         (roles <> [] -> fst (ch_user_roles user roles c) = Ok (ur, true)) ->
         exists st,
           create_update_user_queries user password roles quota profile c
           = (Ok ([quota_query quota members], st), c))
  /\ (forall query_list st c1,
         create_update_user_queries user password roles quota profile c
         = (Ok (query_list, st), c1) ->
         create_update_user user password roles quota profile c
         = match execute_all query_list c1 with
           | (Ok _, c2) =>
               (Ok {| changed := truthy query_list; run_queries := query_list;
                      status := st |}, c2)
           | (Raise e, c2) => (Raise e, c2)
           end)
  /\ (forall address login_user login_password,
         main true false
              {| p_address := address; p_login_user := login_user;
                 p_login_password := login_password; p_user_name := user;
                 p_user_password := password; p_user_quota := quota;
                 p_user_profile := profile; p_user_roles := roles;
                 p_user_state := "present" |} c
         = match create_update_user user password roles quota profile c with
           | (Ok result, c') => (exit_json result, c')
           | (Raise (ServerException message), c') => (fail_json (DbError message), c')
           | (Raise e, c') => (fail_json (Native e), c')
           end).
Proof.
  split; [|split; [|split; [|split; [|reflexivity]]]].
  - intros ex uq hq members up hp ur hr He Hq Hp Hr.
    rewrite (create_update_user_queries_parts RO _ _ _ _ _ _ _ _ _ _ _ _ _ _ He Hq Hp Hr).
    eexists. reflexivity.
  - intros uq members up ur Nq Np Nr He Hq Hp Hr.
    rewrite (create_update_user_queries_parts RO user password roles quota profile c
               false uq false members up false ur false He
               (fun _ => Hq) (fun _ => Hp) (fun _ => Hr)).
    apply String.eqb_neq in Nq, Np. rewrite Nq, Np.
    destruct roles as [|role roles']; [congruence|].
    eexists. reflexivity.
  - intros uq members up ur Nq He Hq Hp Hr.
    rewrite (create_update_user_queries_parts RO user password roles quota profile c
               true uq false members up true ur true He (fun _ => Hq) Hp Hr).
    apply String.eqb_neq in Nq. rewrite Nq.
    rewrite !andb_false_r. eexists. reflexivity.
  - intros query_list st c1 H. now apply create_update_user_runs.
Qed.

(** C10 — ALTER QUOTA keeps the members of the quota.  Against a server
    that answers its [SELECT]s without changing, for a quota that is asked
    for: [ch_user_quotas] returns the [apply_to_list] of the first row
    found for the quota, in its order, with the user appended last, or the
    user alone when no row is found; and the statements of
    [create_update_user] hold an [ALTER QUOTA] exactly when the quota is
    not among the quotas that apply to the user, and that statement lists
    those members followed by the user. *)
Theorem alter_quota_keeps_members user password roles quota profile c
        rows user_quotas raw members ex up hp ur hr :
  quota <> "" ->
  fst (ch_user_exists user c) = Ok ex ->
  fst (execute (user_quotas_query user) c) = Ok rows ->
  fst (first_column rows c) = Ok user_quotas ->
  fst (execute (quota_has_users_query quota) c) = Ok raw ->
  (raw = [] /\ members = []
   \/ exists cells more, raw = (VArray members :: cells) :: more) ->
  (profile <> "" -> fst (ch_user_profiles user profile c) = Ok (up, hp)) ->
  (roles <> [] -> fst (ch_user_roles user roles c) = Ok (ur, hr)) ->
  ch_user_quotas user quota c
  = (Ok (user_quotas, str_in_values quota user_quotas, members ++ [user]), c)
  /\ exists query_list st,
      create_update_user_queries user password roles quota profile c
      = (Ok (query_list, st), c)
      /\ filter (prefix "ALTER QUOTA ") query_list
         = if str_in_values quota user_quotas then []
           else [("ALTER QUOTA " ++ quota ++ " to "
                    ++ join ", " (members ++ [user]))%string].
Proof.
  intros Nq He H1 H2 H3 H4 Hp Hr.
  pose proof (ch_user_quotas_answers RO user quota c rows user_quotas raw members
                H1 H2 H3 H4) as Hquota.
  split; [exact Hquota|].
  assert (Hq : quota <> "" ->
               fst (ch_user_quotas user quota c)
               = Ok (user_quotas, str_in_values quota user_quotas, members ++ [user]))
    by (intros _; now rewrite Hquota).
  rewrite (create_update_user_queries_parts RO _ _ _ _ _ _ _ _ _ _ _ _ _ _ He Hq Hp Hr).
  do 2 eexists. split; [reflexivity|].
  apply String.eqb_neq in Nq. rewrite Nq. cbn [negb andb].
  rewrite !filter_app.
  replace (filter (prefix "ALTER QUOTA ")
                  (if ex then [] else [user_query user password]))
    with (@nil string) by (now destruct ex).
  replace (filter (prefix "ALTER QUOTA ")
                  (if negb (String.eqb profile "") && negb hp
                   then [profile_query user profile] else []))
    with (@nil string)
    by (now destruct (negb (String.eqb profile "") && negb hp)).
  replace (filter (prefix "ALTER QUOTA ")
                  (if truthy roles && negb hr then [roles_query roles user] else []))
    with (@nil string) by (now destruct (truthy roles && negb hr)).
  rewrite app_nil_r. cbn [app].
  destruct (str_in_values quota user_quotas); cbn [negb]; [reflexivity|].
  cbn [filter]. unfold quota_query at 1. now rewrite prefix_app.
Qed.
End UsersProperties.

(** ** Running a reconciliation twice *)

Section Idempotence.
Import ClickhouseGrants.
Context {G : Gateway}.


Lemma execute_all_app (a b : list string) c c2 :
  execute_all (a ++ b) c = (Ok tt, c2) ->
  exists c1, execute_all a c = (Ok tt, c1) /\ execute_all b c1 = (Ok tt, c2).
Proof.
  revert c. induction a as [|q a IH]; intros c H.
  - exists c. split; [reflexivity | exact H].
  - cbn [app execute_all] in *. unfold bind in *.
    destruct (execute q c) as [[rows|e] c0]; [|discriminate].
    apply IH in H. exact H.
Qed.

Lemma get_user_roles_other_list grantee roles_list c user_roles user_has_roles c1 :
  get_user_roles grantee roles_list c = (Ok (user_roles, user_has_roles), c1) ->
  forall other,
    get_user_roles grantee other c
    = (Ok (user_roles, forallb (fun role => str_in_values role user_roles) other), c1).
Proof.
  intros H other.
  destruct (get_user_roles_inv _ _ _ _ _ _ H) as [c0 [rows [He [Hx [Hf _]]]]].
  unfold get_user_roles, bind. rewrite He. cbn [negb]. rewrite Hx, Hf. reflexivity.
Qed.

Lemma reports_roles_observed grantee roles_list c user_roles :
  reports_roles grantee c user_roles ->
  get_user_roles grantee roles_list c
  = (Ok (user_roles, forallb (fun role => str_in_values role user_roles) roles_list), c).
Proof. intros H. apply (get_user_roles_other_list _ _ _ _ _ _ H). Qed.

Lemma filter_none_held roles_list user_roles :
  (forall role, In role roles_list -> ~ In (VStr role) user_roles) ->
  filter (fun role => str_in_values role user_roles) roles_list = [].
Proof.
  intros Hnone. induction roles_list as [|x l IH]; [reflexivity|]. cbn [filter].
  destruct (str_in_values x user_roles) eqn:E.
  - apply str_in_values_In in E. elim (Hnone x (or_introl eq_refl) E).
  - apply IH. intros role Hr. apply Hnone. now right.
Qed.

Lemma forallb_all_held roles_list user_roles :
  (forall role, In role roles_list -> In (VStr role) user_roles) ->
  forallb (fun role => str_in_values role user_roles) roles_list = true.
Proof.
  intros H. apply forallb_forall. intros role Hr. apply str_in_values_In. auto.
Qed.

Section Roles.
Variables (grantee : string) (roles_list : list string).
Hypothesis RO : read_only G.
Hypothesis Hgrant : grant_takes_effect grantee roles_list.
Hypothesis Hrevoke : revoke_takes_effect grantee roles_list.
Hypothesis Hcreate : create_role_keeps_user grantee roles_list.

Lemma grants_ch_user_exists_conn c : snd (ch_user_exists grantee c) = c.
Proof.
  unfold ch_user_exists, bind.
  pose proof (RO (user_exists_query grantee) c eq_refl) as H.
  destruct (execute (user_exists_query grantee) c) as [[rows|e] c']; simpl in H; subst;
    [|reflexivity].
  destruct rows as [|[|[] r] rows]; reflexivity.
Qed.

Lemma get_user_roles_conn other c : snd (get_user_roles grantee other c) = c.
Proof.
  unfold get_user_roles, bind.
  pose proof (grants_ch_user_exists_conn c) as H.
  destruct (ch_user_exists grantee c) as [[[|]|e] c']; simpl in H; subst;
    cbn [negb]; try reflexivity.
  pose proof (RO (user_roles_query grantee) c eq_refl) as H.
  destruct (execute (user_roles_query grantee) c) as [[rows|e] c']; simpl in H; subst;
    [|reflexivity].
  pose proof (first_column_conn rows c) as H.
  destruct (first_column rows c) as [[vs|e] c']; simpl in H; subst; reflexivity.
Qed.

Lemma creates_keep_user (created : list string) :
  incl created roles_list ->
  forall c before c1,
    reports_roles grantee c before ->
    execute_all (map create_role_query created) c = (Ok tt, c1) ->
    exists after, reports_roles grantee c1 after.
Proof.
  induction created as [|role l IH]; intros Hincl c before c1 Hrep Hex.
  - cbn in Hex. injection Hex as <-. now exists before.
  - cbn [map execute_all] in Hex. unfold bind in Hex.
    destruct (execute (create_role_query role) c) as [[rows|e] c0] eqn:E;
      [|discriminate].
    destruct (Hcreate role c before rows c0 (Hincl role (or_introl eq_refl)) Hrep E)
      as [mid Hmid].
    apply (IH (fun x Hx => Hincl x (or_intror Hx)) c0 mid c1 Hmid Hex).
Qed.

Lemma revokes_take_effect (revoked : list string) :
  incl revoked roles_list ->
  forall c before c1,
    reports_roles grantee c before ->
    execute_all (map (fun role => revoke_role_query role grantee) revoked) c
    = (Ok tt, c1) ->
    exists after,
      reports_roles grantee c1 after
      /\ (forall v, In v after -> In v before)
      /\ forall role, In role revoked -> ~ In (VStr role) after.
Proof.
  induction revoked as [|role l IH]; intros Hincl c before c1 Hrep Hex.
  - cbn in Hex. injection Hex as <-. exists before. repeat split; auto.
  - cbn [map execute_all] in Hex. unfold bind in Hex.
    destruct (execute (revoke_role_query role grantee) c) as [[rows|e] c0] eqn:E;
      [|discriminate].
    destruct (Hrevoke role c before rows c0 (Hincl role (or_introl eq_refl)) Hrep E)
      as [mid [Hmid [Hgone Hsub]]].
    destruct (IH (fun x Hx => Hincl x (or_intror Hx)) c0 mid c1 Hmid Hex)
      as [after [Hafter [Hsub' Hgone']]].
    exists after. split; [assumption|]. split; [auto|].
    intros x [<-|Hx]; [|auto]. intros Hin. apply Hgone. auto.
Qed.

(** The role path without replace: after a call that returned, the same
    call returns unchanged, with no statement, and leaves the server as
    it is. *)
Lemma grant_roles_twice roles_init revoke c r1 c1 :
  grant_roles_func grantee roles_list roles_init false revoke c = (Ok r1, c1) ->
  exists r2,
    grant_roles_func grantee roles_list roles_init false revoke c1 = (Ok r2, c1)
    /\ changed r2 = false /\ run_queries r2 = [].
Proof.
  intros H1.
  destruct (get_user_roles grantee roles_list c) as [[[user_roles has]|e] c0] eqn:Eobs.
  2:{ unfold grant_roles_func, bind in H1. rewrite Eobs in H1. discriminate. }
  pose proof (get_user_roles_conn roles_list c) as Hc. rewrite Eobs in Hc.
  simpl in Hc. subst c0.
  destruct (grant_roles_func_returns _ _ _ _ _ _ _ _ _ _ _ Eobs H1) as [Hq [_ Hex]].
  rewrite Hq in Hex. clear Hq.
  assert (Hrep : reports_roles grantee c user_roles).
  { unfold reports_roles. now rewrite (get_user_roles_other_list _ _ _ _ _ _ Eobs). }
  destruct (get_user_roles_inv _ _ _ _ _ _ Eobs) as [_ [_ [_ [_ [_ Hhas]]]]].
  assert (Hdone : forall after,
             reports_roles grantee c1 after ->
             grant_roles_query_list grantee roles_list roles_init false revoke after
               (forallb (fun role => str_in_values role after) roles_list) = [] ->
             exists r2,
               grant_roles_func grantee roles_list roles_init false revoke c1
               = (Ok r2, c1)
               /\ changed r2 = false /\ run_queries r2 = []).
  { intros after Hafter Hnil.
    rewrite (grant_roles_func_observed _ _ _ _ _ _ _ _ _
               (reports_roles_observed _ roles_list _ _ Hafter)).
    cbv zeta. rewrite Hnil. cbn. eexists. repeat split. }
  unfold grant_roles_query_list in Hex, Hdone. destruct revoke.
  - destruct (revokes_take_effect _ (incl_filter _ roles_list) c user_roles c1 Hrep Hex)
      as [after [Hafter [Hsub Hgone]]].
    apply (Hdone after Hafter). rewrite filter_none_held; [reflexivity|].
    intros role Hr Hin.
    destruct (str_in_values role user_roles) eqn:E.
    + apply (Hgone role); [|assumption]. apply filter_In. auto.
    + apply Hsub in Hin. apply str_in_values_In in Hin. congruence.
  - destruct has; cbn [negb andb app] in Hex.
    + rewrite andb_false_r in Hex. cbn in Hex. injection Hex as <-.
      apply (Hdone user_roles Hrep). rewrite <- Hhas. now rewrite andb_false_r.
    + rewrite andb_true_r in Hex.
      apply execute_all_app in Hex. destruct Hex as [cm [Hcr Hgr]].
      assert (exists mid, reports_roles grantee cm mid) as [mid Hmid].
      { destruct roles_init.
        - apply (creates_keep_user roles_list (incl_refl _) c user_roles cm Hrep Hcr).
        - cbn in Hcr. injection Hcr as <-. now exists user_roles. }
      cbn [execute_all] in Hgr. unfold bind in Hgr.
      destruct (execute (grant_roles_query roles_list grantee) cm) as [[rows|e] c2] eqn:E;
        [|discriminate].
      cbn in Hgr. injection Hgr as ->.
      destruct (Hgrant cm mid rows c1 Hmid E) as [after [Hafter Hall]].
      apply (Hdone after Hafter). rewrite (forallb_all_held _ _ Hall).
      now rewrite andb_false_r.
Qed.
End Roles.

Lemma truthy_grants_query_list grantee grants_list databases tables replace revoke :
  truthy (grants_query_list grantee grants_list databases tables replace revoke)
  = truthy databases && truthy tables.
Proof.
  destruct revoke.
  - rewrite grants_query_list_revoke.
    destruct databases as [|d ds]; [reflexivity|].
    destruct tables as [|t ts]; [now rewrite list_prod_nil_r | reflexivity].
  - rewrite grants_query_list_grant.
    destruct databases as [|d ds]; [reflexivity|].
    destruct tables as [|t ts]; [now rewrite list_prod_nil_r | reflexivity].
Qed.

(** The privilege path observes nothing: a second call that returns,
    returns what the first one returned. *)
Lemma grants_func_twice grantee grants_list databases tables replace revoke
      c r1 c1 r2 c2 :
  grants_func grantee grants_list databases tables replace revoke c = (Ok r1, c1) ->
  grants_func grantee grants_list databases tables replace revoke c1 = (Ok r2, c2) ->
  r2 = r1.
Proof.
  destruct (check_grants grants_list) as [err|] eqn:E.
  - unfold grants_func. rewrite E. unfold ret. congruence.
  - rewrite !grants_func_valid by assumption. cbv zeta.
    destruct (execute_all _ c) as [[[]|e] c'], (execute_all _ c1) as [[[]|e'] c''];
      congruence.
Qed.
End Idempotence.

Section Twice.
Import ClickhouseGrants.
Context {G : Gateway}.

(** C1, as the code has it — Running a reconciliation twice.  On a server
    that answers its [SELECT]s without changing and on which [GRANT],
    [REVOKE] and [CREATE ROLE] do what they say: a role assignment without
    replace (grant or revoke) that has returned is followed, for the same
    inputs, by a call that returns unchanged, with no statement, and sends
    none.  A role assignment with replace sends its
    [GRANT ... WITH REPLACE OPTION] and reports a change on every call that
    returns.  A privilege reconciliation looks at nothing on the server: a
    second call that returns gives the result of the first, so it reports a
    change and the same statements again whenever the privileges are
    applicable and there is a database and a table. *)
Theorem reconcile_twice grantee roles_list :
  read_only G ->
  grant_takes_effect grantee roles_list ->
  revoke_takes_effect grantee roles_list ->
  create_role_keeps_user grantee roles_list ->
  (forall roles_init revoke c r1 c1,
      grant_roles_func grantee roles_list roles_init false revoke c = (Ok r1, c1) ->
      exists r2,
        grant_roles_func grantee roles_list roles_init false revoke c1 = (Ok r2, c1)
        /\ changed r2 = false /\ run_queries r2 = [])
  /\ (forall roles_init c r c',
         grant_roles_func grantee roles_list roles_init true false c = (Ok r, c') ->
         changed r = true
         /\ In (grant_roles_replace_query roles_list grantee) (run_queries r))
  /\ (forall grants_list databases tables replace revoke c r1 c1 r2 c2,
         grants_func grantee grants_list databases tables replace revoke c = (Ok r1, c1) ->
         grants_func grantee grants_list databases tables replace revoke c1 = (Ok r2, c2) ->
         r2 = r1
         /\ (check_grants grants_list = None -> databases <> [] -> tables <> [] ->
             changed r2 = true /\ run_queries r2 <> [])).
Proof.
  intros RO Hgrant Hrevoke Hcreate. split; [|split].
  - intros roles_init revoke c r1 c1.
    apply (grant_roles_twice grantee roles_list RO Hgrant Hrevoke Hcreate).
  - intros roles_init c r c' Hr.
    destruct (get_user_roles grantee roles_list c) as [[[user_roles has]|e] c0] eqn:Eobs.
    2:{ unfold grant_roles_func, bind in Hr. rewrite Eobs in Hr. discriminate. }
    destruct (grant_roles_func_returns _ _ _ _ _ _ _ _ _ _ _ Eobs Hr) as [Hq [Hch _]].
    rewrite Hch, Hq. unfold grant_roles_query_list. split.
    + now destruct (if roles_init && negb has then map create_role_query roles_list else []).
    + apply in_or_app. right. now left.
  - intros grants_list databases tables replace revoke c r1 c1 r2 c2 H1 H2.
    split; [apply (grants_func_twice _ _ _ _ _ _ _ _ _ _ _ H1 H2)|].
    intros Hvalid Hd Ht.
    destruct (grants_func_returns _ _ _ _ _ _ _ _ _ Hvalid H2) as [Hq [Hch _]].
    assert (Htr : truthy (run_queries r2) = true).
    { rewrite Hq, truthy_grants_query_list.
      destruct databases; [congruence|]. destruct tables; [congruence|]. reflexivity. }
    split; [congruence|]. intros E. rewrite E in Htr. discriminate.
Qed.

End Twice.

(** ** The reference server obeys the laws assumed of a server *)

Section ServerLaws.
Import ClickhouseGrants Server.

Lemma server_read_only : read_only gateway.
Proof.
  intros query c H. cbn [execute gateway]. unfold run.
  destruct (parse query); [rewrite H|]; reflexivity.
Qed.

Lemma server_first_column {A : Type} (f : A -> string) (l : list A) (c : state) :
  first_column (G := gateway) (map (fun g => [VStr (f g)]) l) c
  = (Ok (map (fun g => VStr (f g)) l), c).
Proof.
  induction l as [|x l IH]; [reflexivity|].
  cbn [map first_column]. unfold bind. cbn [item0]. unfold ret at 1.
  rewrite IH. reflexivity.
Qed.

Lemma count_positive (name : string) (l : list string) :
  (0 <? Z.of_nat (List.length (filter (String.eqb name) l)))%Z = str_in name l.
Proof.
  unfold str_in. induction l as [|x l IH]; [reflexivity|].
  cbn [filter existsb]. destruct (String.eqb name x); [|exact IH].
  cbn [List.length orb]. apply Z.ltb_lt. lia.
Qed.


Lemma server_get_user_roles grantee other (c : state) :
  parse (user_exists_query grantee) = Some (SelectUserCount grantee) ->
  parse (user_roles_query grantee) = Some (SelectRoleGrants grantee) ->
  get_user_roles (G := gateway) grantee other c
  = if str_in grantee (users c)
    then (Ok (held grantee c,
              forallb (fun role => str_in_values role (held grantee c)) other), c)
    else (Raise (NameError "module"), c).
Proof.
  intros P1 P2. unfold get_user_roles, ch_user_exists, bind, ret, raise.
  cbn [execute gateway]. unfold run. rewrite P1, P2.
  replace (is_select (user_exists_query grantee)) with true by reflexivity.
  replace (is_select (user_roles_query grantee)) with true by reflexivity.
  cbn [answer]. unfold item0, ret. cbv beta iota. rewrite count_positive.
  destruct (str_in grantee (users c)); cbn [negb]; [|reflexivity].
  rewrite (server_first_column snd). reflexivity.
Qed.

Lemma server_reports_roles grantee (c : state) user_roles :
  parse (user_exists_query grantee) = Some (SelectUserCount grantee) ->
  parse (user_roles_query grantee) = Some (SelectRoleGrants grantee) ->
  (reports_roles (G := gateway) grantee c user_roles
   <-> str_in grantee (users c) = true /\ user_roles = held grantee c).
Proof.
  intros P1 P2. unfold reports_roles. rewrite (server_get_user_roles _ _ _ P1 P2).
  destruct (str_in grantee (users c)); cbn [forallb]; split.
  - intros H. inversion H. auto.
  - intros [_ ->]. reflexivity.
  - discriminate.
  - intros [H _]. discriminate.
Qed.

Lemma pair_eqb_eq (a b : string * string) : pair_eqb a b = true -> a = b.
Proof.
  destruct a, b. unfold pair_eqb. cbn [fst snd]. rewrite andb_true_iff, !String.eqb_eq.
  intros [-> ->]. reflexivity.
Qed.

Lemma add_new_keeps {A : Type} (eqb : A -> A -> bool) (ys xs : list A) (x : A) :
  In x xs -> In x (add_new eqb xs ys).
Proof.
  unfold add_new. revert xs. induction ys as [|y ys IH]; intros xs H; [exact H|].
  cbn [fold_left]. apply IH. destruct (existsb (eqb y) xs); [exact H|].
  apply in_or_app. now left.
Qed.

Lemma add_new_adds {A : Type} (eqb : A -> A -> bool) (ys xs : list A) (y : A) :
  (forall a b, eqb a b = true -> a = b) ->
  In y ys -> In y (add_new eqb xs ys).
Proof.
  intros Heq. unfold add_new. revert xs.
  induction ys as [|z ys IH]; intros xs H; [destruct H|].
  cbn [fold_left]. destruct H as [->|H]; [|now apply IH].
  apply (add_new_keeps eqb ys).
  destruct (existsb (eqb y) xs) eqn:E.
  - apply existsb_exists in E. destruct E as [x [Hx E]].
    apply Heq in E. now subst.
  - apply in_or_app. right. now left.
Qed.

Lemma held_In grantee (c : state) role :
  In (VStr role) (held grantee c) <-> In (grantee, role) (role_grants c).
Proof.
  unfold held. rewrite in_map_iff. split.
  - intros [[u r] [E H]]. apply filter_In in H. destruct H as [H Hu].
    cbn [fst snd] in *. apply String.eqb_eq in Hu. injection E as ->. now subst.
  - intros H. exists (grantee, role). split; [reflexivity|].
    apply filter_In. split; [exact H | apply String.eqb_refl].
Qed.

Lemma held_incl grantee (c c' : state) :
  incl (role_grants c') (role_grants c) ->
  forall v, In v (held grantee c') -> In v (held grantee c).
Proof.
  intros Hincl v. unfold held. rewrite !in_map_iff.
  intros [g [E H]]. exists g. split; [exact E|].
  apply filter_In in H. apply filter_In. split; [apply Hincl|]; tauto.
Qed.

Lemma server_grant_takes_effect grantee roles_list :
  parse (user_exists_query grantee) = Some (SelectUserCount grantee) ->
  parse (user_roles_query grantee) = Some (SelectRoleGrants grantee) ->
  parse (grant_roles_query roles_list grantee)
  = Some (GrantRoles roles_list grantee false) ->
  grant_takes_effect (G := gateway) grantee roles_list.
Proof.
  intros P1 P2 P3 c before rows c' Hrep Hex.
  apply (server_reports_roles _ _ _ P1 P2) in Hrep. destruct Hrep as [Huser _].
  cbn [execute gateway] in Hex. unfold run in Hex. rewrite P3 in Hex.
  replace (is_select (grant_roles_query roles_list grantee)) with false in Hex
    by reflexivity.
  cbn [perform] in Hex.
  destruct (is_principal grantee c && forallb (fun r => str_in r (roles c)) roles_list);
    [|discriminate].
  injection Hex as _ <-.
  exists (held grantee (with_role_grants c
                          (add_new pair_eqb (role_grants c)
                                   (map (fun r => (grantee, r)) roles_list)))).
  split.
  - apply (server_reports_roles _ _ _ P1 P2). split; [exact Huser | reflexivity].
  - intros role Hr. apply held_In. cbn [role_grants with_role_grants].
    apply add_new_adds; [apply pair_eqb_eq|].
    apply in_map_iff. now exists role.
Qed.

Lemma server_revoke_takes_effect grantee roles_list :
  parse (user_exists_query grantee) = Some (SelectUserCount grantee) ->
  parse (user_roles_query grantee) = Some (SelectRoleGrants grantee) ->
  (forall role, In role roles_list ->
                parse (revoke_role_query role grantee) = Some (RevokeRoles [role] grantee)) ->
  revoke_takes_effect (G := gateway) grantee roles_list.
Proof.
  intros P1 P2 P3 role c before rows c' Hin Hrep Hex.
  apply (server_reports_roles _ _ _ P1 P2) in Hrep. destruct Hrep as [Huser ->].
  cbn [execute gateway] in Hex. unfold run in Hex. rewrite (P3 role Hin) in Hex.
  replace (is_select (revoke_role_query role grantee)) with false in Hex by reflexivity.
  cbn [perform] in Hex.
  destruct (is_principal grantee c); [|discriminate].
  injection Hex as _ <-.
  eexists. split; [|split].
  - apply (server_reports_roles _ _ _ P1 P2). split; [exact Huser | reflexivity].
  - rewrite held_In. cbn [role_grants with_role_grants]. rewrite filter_In.
    cbn [fst snd str_in existsb]. rewrite !String.eqb_refl. cbn. intros [_ H].
    discriminate.
  - apply held_incl. cbn [role_grants with_role_grants]. apply incl_filter.
Qed.

Lemma server_create_role_keeps_user grantee roles_list :
  parse (user_exists_query grantee) = Some (SelectUserCount grantee) ->
  parse (user_roles_query grantee) = Some (SelectRoleGrants grantee) ->
  (forall role, In role roles_list ->
                parse (create_role_query role) = Some (CreateRole role)) ->
  create_role_keeps_user (G := gateway) grantee roles_list.
Proof.
  intros P1 P2 P3 role c before rows c' Hin Hrep Hex.
  apply (server_reports_roles _ _ _ P1 P2) in Hrep. destruct Hrep as [Huser ->].
  cbn [execute gateway] in Hex. unfold run in Hex. rewrite (P3 role Hin) in Hex.
  replace (is_select (create_role_query role)) with false in Hex by reflexivity.
  cbn [perform] in Hex. injection Hex as _ <-.
  eexists. apply (server_reports_roles _ _ _ P1 P2). split; [exact Huser | reflexivity].
Qed.
End ServerLaws.

(** ** The modules on the reference server *)

Section OnTheServer.
Import ClickhouseGrants.

(** C4 — the cluster clause is never rendered.  [main] reads [on_cluster]
    and [cluster_name] and hands them to nothing, so its outcome is the
    same whatever they are; with cluster-qualified execution asked for
    (cluster [default]) and [select] on [statistics.*] granted to
    [reader_role], the only statement sent is the plain
    [GRANT select on statistics.* to 'reader_role'], with no cluster
    clause in it. *)
Theorem cluster_clause_missing :
  (forall (G : Gateway) address secure_connect login_user login_password
          grantee grants databases tables roles init revoke replace
          on_cluster cluster_name CHClient check_mode (c : conn),
      main CHClient check_mode
           {| p_address := address; p_secure_connect := secure_connect;
              p_login_user := login_user; p_login_password := login_password;
              p_grantee_name := grantee; p_grants := grants; p_databases := databases;
              p_tables := tables; p_grant_roles := roles; p_init_roles := init;
              p_revoke_grants := revoke; p_replace_grants := replace;
              p_on_cluster := on_cluster; p_cluster_name := cluster_name |} c
      = main CHClient check_mode
             {| p_address := address; p_secure_connect := secure_connect;
                p_login_user := login_user; p_login_password := login_password;
                p_grantee_name := grantee; p_grants := grants; p_databases := databases;
                p_tables := tables; p_grant_roles := roles; p_init_roles := init;
                p_revoke_grants := revoke; p_replace_grants := replace;
                p_on_cluster := false; p_cluster_name := "default" |} c)
  /\ exists r c',
      main (G := Server.gateway) true false
           {| p_address := "127.0.0.1"; p_secure_connect := false;
              p_login_user := "default"; p_login_password := "";
              p_grantee_name := "reader_role"; p_grants := ["select"];
              p_databases := ["statistics"]; p_tables := ["*"];
              p_grant_roles := []; p_init_roles := false;
              p_revoke_grants := false; p_replace_grants := false;
              p_on_cluster := true; p_cluster_name := "default" |} Server.sample
      = (exit_json r, c')
      /\ run_queries r = ["GRANT select on statistics.* to 'reader_role'"]
      /\ existsb (contains "CLUSTER") (run_queries r) = false.
Proof.
  split; [reflexivity|].
  vm_compute. do 2 eexists. repeat split.
Qed.

(** C1, counterexample: [alice] is granted [select] on [default.*]; the
    call returns and the server holds the grant; the same call on that
    server sends the same [GRANT] again and reports a change. *)
Lemma privilege_grant_repeats :
  exists r1 c1 r2,
    grants_func (G := Server.gateway) "alice" ["select"] ["default"] ["*"] false false
                Server.sample = (Ok r1, c1)
    /\ Server.privileges c1 = [("alice", "select on default.*")]
    /\ grants_func (G := Server.gateway) "alice" ["select"] ["default"] ["*"] false false
                   c1 = (Ok r2, c1)
    /\ changed r2 = true
    /\ run_queries r2 = ["GRANT select on default.* to 'alice'"].
Proof. vm_compute. do 3 eexists. repeat split. Qed.

(** C3, counterexample: [alice] holds [reader] and not [writer]; with
    [init_roles] set, a [CREATE ROLE] is emitted for [reader] too. *)
Lemma create_role_for_held_role :
  exists r c',
    grant_roles_func (G := Server.gateway) "alice" ["reader"; "writer"] true false false
                     Server.sample = (Ok r, c')
    /\ user_status r = Some ([VStr "reader"], false)
    /\ run_queries r = ["CREATE ROLE IF NOT EXISTS reader";
                        "CREATE ROLE IF NOT EXISTS writer";
                        "GRANT reader, writer to 'alice'"].
Proof. vm_compute. do 2 eexists. repeat split. Qed.

Lemma replace_single_shot_witness :
  check_grants ["select"] = None
  /\ 2 <= List.length ["d1"; "d2"] * List.length ["t1"; "t2"]
  /\ forall i q,
      nth_error (grants_query_list "alice" ["select"] ["d1"; "d2"] ["t1"; "t2"] true false) i
      = Some q ->
      ends_with " WITH REPLACE OPTION" q = true && Nat.eqb i 0.
Proof.
  assert (H1 : check_grants ["select"] = None) by reflexivity.
  assert (H2 : 2 <= List.length ["d1"; "d2"] * List.length ["t1"; "t2"])
    by (cbn; repeat constructor).
  split; [exact H1 | split; [exact H2|]].
  exact (proj2 (proj2 (proj2
           (replace_single_shot (G := Server.gateway) "alice" ["select"]
              ["d1"; "d2"] ["t1"; "t2"] true Server.sample H1 H2)))).
Defined.

Lemma cross_product_order_witness :
  check_grants ["select"] = None
  /\ grants_query_list "alice" ["select"] ["d1"; "d2"] ["t1"; "t2"] false false
     = ["GRANT select on d1.t1 to 'alice'"; "GRANT select on d1.t2 to 'alice'";
        "GRANT select on d2.t1 to 'alice'"; "GRANT select on d2.t2 to 'alice'"].
Proof.
  assert (H : check_grants ["select"] = None) by reflexivity.
  split; [exact H|].
  destruct (proj1 (cross_product_order (G := Server.gateway) "alice" Server.sample)
              ["select"] ["d1"; "d2"] ["t1"; "t2"] false H) as [Hq [Hplain _]].
  rewrite Hq, (Hplain eq_refl). reflexivity.
Defined.

Lemma unsupported_privilege_aborts_witness :
  Forall (fun g => In (upper g) applicable_grants \/ g = "dictGet") ["select"]
  /\ ~ In (upper "fly") applicable_grants
  /\ "fly" <> "dictGet"
  /\ exists r,
      grants_func_with upper (G := Server.gateway) "alice" ["select"; "fly"; "insert"]
                       ["default"] ["*"] false false Server.sample
      = (Ok r, Server.sample)
      /\ failed r = Some true /\ run_queries r = []
      /\ error r = Some ("FLY not in applicable grants: "
                           ++ join ", " applicable_grants ++ ".")%string.
Proof.
  assert (H1 : Forall (fun g => In (upper g) applicable_grants \/ g = "dictGet")
                      ["select"]).
  { constructor; [|constructor]. left. apply str_in_In. reflexivity. }
  assert (H2 : ~ In (upper "fly") applicable_grants).
  { rewrite <- str_in_In. vm_compute. discriminate. }
  assert (H3 : "fly" <> "dictGet") by discriminate.
  split; [exact H1 | split; [exact H2 | split; [exact H3|]]].
  eexists. split; [|split; [|split]].
  - exact (proj1 (unsupported_privilege_aborts (G := Server.gateway) upper "alice"
                    ["select"] "fly" ["insert"] ["default"] ["*"] false false
                    Server.sample H1 H2 H3)).
  - reflexivity.
  - reflexivity.
  - reflexivity.
Defined.

Lemma exclusive_mode_witness :
  let p := {| p_address := "127.0.0.1"; p_secure_connect := false;
              p_login_user := "default"; p_login_password := "";
              p_grantee_name := "alice"; p_grants := ["select"];
              p_databases := ["default"]; p_tables := ["*"];
              p_grant_roles := ["reader"]; p_init_roles := false;
              p_revoke_grants := false; p_replace_grants := false;
              p_on_cluster := false; p_cluster_name := "default" |} in
  p_grant_roles p <> [] /\ p_grants p <> []
  /\ main (G := Server.gateway) true false p Server.sample
     = (fail_json (Msg "Only one of parameters 'grant_roles' OR 'grants' must be defined."),
        Server.sample).
Proof.
  intros p.
  assert (H1 : p_grant_roles p <> []) by discriminate.
  assert (H2 : p_grants p <> []) by discriminate.
  split; [exact H1 | split; [exact H2|]].
  exact (proj1 (exclusive_mode (G := Server.gateway) p Server.sample) H1 H2).
Defined.

Lemma role_revoke_semantics_witness :
  get_user_roles (G := Server.gateway) "alice" ["writer"] Server.sample
  = (Ok ([VStr "reader"], false), Server.sample)
  /\ grant_roles_func (G := Server.gateway) "alice" ["writer"] false false true
                      Server.sample
     = (Ok {| changed := false; run_queries := [];
              grant_roles := Some ["writer"];
              revoke_grants := Some true;
              replace_grants := Some false;
              user_status := None;
              error := None; failed := None; msg := None |},
        Server.sample).
Proof.
  assert (H : get_user_roles (G := Server.gateway) "alice" ["writer"] Server.sample
              = (Ok ([VStr "reader"], false), Server.sample)) by reflexivity.
  split; [exact H|].
  apply (proj2 (proj2 (role_revoke_semantics (G := Server.gateway) "alice" ["writer"]
                         false false Server.sample [VStr "reader"] false Server.sample H))).
  intros role [<-|[]] [E|[]]. discriminate.
Defined.

Lemma create_role_for_every_role_witness :
  get_user_roles (G := Server.gateway) "alice" ["reader"; "writer"] Server.sample
  = (Ok ([VStr "reader"], false), Server.sample)
  /\ filter (prefix "CREATE ROLE IF NOT EXISTS ")
            (grant_roles_query_list "alice" ["reader"; "writer"] true false false
                                    [VStr "reader"] false)
     = map create_role_query ["reader"; "writer"].
Proof.
  assert (H : get_user_roles (G := Server.gateway) "alice" ["reader"; "writer"] Server.sample
              = (Ok ([VStr "reader"], false), Server.sample)) by reflexivity.
  split; [exact H|].
  exact (proj1 (proj2 (create_role_for_every_role (G := Server.gateway) "alice"
                         ["reader"; "writer"] true false Server.sample
                         [VStr "reader"] false Server.sample H))).
Defined.

Lemma reconcile_twice_witness :
  exists r1 c1 r2,
    grant_roles_func (G := Server.gateway) "alice" ["writer"] false false false
                     Server.sample = (Ok r1, c1)
    /\ run_queries r1 = ["GRANT writer to 'alice'"]
    /\ grant_roles_func (G := Server.gateway) "alice" ["writer"] false false false c1
       = (Ok r2, c1)
    /\ changed r2 = false /\ run_queries r2 = [].
Proof.
  destruct (grant_roles_func (G := Server.gateway) "alice" ["writer"] false false false
                             Server.sample) as [[r1|e] c1] eqn:H1.
  2:{ exfalso. vm_compute in H1. discriminate. }
  assert (Hq : run_queries r1 = ["GRANT writer to 'alice'"]).
  { vm_compute in H1. injection H1 as <- _. reflexivity. }
  destruct (proj1 (reconcile_twice (G := Server.gateway) "alice" ["writer"]
                     server_read_only
                     (server_grant_takes_effect "alice" ["writer"]
                        eq_refl eq_refl eq_refl)
                     (server_revoke_takes_effect "alice" ["writer"] eq_refl eq_refl
                        (fun role H => match H with
                                       | or_introl E =>
                                           eq_ind "writer"
                                             (fun r => Server.parse (revoke_role_query r "alice")
                                                       = Some (Server.RevokeRoles [r] "alice"))
                                             eq_refl role E
                                       | or_intror F => match F with end
                                       end))
                     (server_create_role_keeps_user "alice" ["writer"] eq_refl eq_refl
                        (fun role H => match H with
                                       | or_introl E =>
                                           eq_ind "writer"
                                             (fun r => Server.parse (create_role_query r)
                                                       = Some (Server.CreateRole r))
                                             eq_refl role E
                                       | or_intror F => match F with end
                                       end)))
                  false false Server.sample r1 c1 H1) as [r2 [H2 [H3 H4]]].
  exists r1, c1, r2. auto.
Defined.
End OnTheServer.

Section UsersOnTheServer.
Import ClickhouseUsers.

Lemma user_lifecycle_composition_witness :
  read_only Server.gateway
  /\ fst (ch_user_exists (G := Server.gateway) "carol" Server.sample) = Ok false
  /\ exists st,
      create_update_user_queries (G := Server.gateway) "carol" "secret" ["reader"]
                                 "q1" "p1" Server.sample
      = (Ok (["CREATE USER carol IDENTIFIED WITH sha256_password BY 'secret'";
              "ALTER QUOTA q1 to bob, carol";
              "ALTER USER carol SETTINGS PROFILE p1";
              "GRANT reader to carol"], st),
         Server.sample).
Proof.
  split; [exact server_read_only | split; [reflexivity|]].
  exact (proj1 (proj2 (user_lifecycle_composition (G := Server.gateway) server_read_only
                         "carol" "secret" ["reader"] "q1" "p1" Server.sample))
               [] ["bob"; "carol"] [] []
               ltac:(discriminate) ltac:(discriminate) ltac:(discriminate)
               eq_refl eq_refl eq_refl eq_refl).
Defined.

Lemma alter_quota_keeps_members_witness :
  read_only Server.gateway
  /\ fst (execute (Gateway := Server.gateway)
                  (quota_has_users_query "q1") Server.sample)
     = Ok [[VArray ["bob"]]]
  /\ ch_user_quotas (G := Server.gateway) "alice" "q1" Server.sample
     = (Ok ([], false, ["bob"; "alice"]), Server.sample).
Proof.
  split; [exact server_read_only | split; [reflexivity|]].
  exact (proj1 (alter_quota_keeps_members (G := Server.gateway) server_read_only
                  "alice" "secret" [] "q1" "" Server.sample
                  [] [] [[VArray ["bob"]]] ["bob"] true [] false [] false
                  ltac:(discriminate) eq_refl eq_refl eq_refl eq_refl
                  (or_intror (ex_intro _ [] (ex_intro _ [] eq_refl)))
                  (fun H => match H eq_refl with end)
                  (fun H => match H eq_refl with end))).
Defined.
End UsersOnTheServer.

(** * Further properties *)

(** ** What reaches the server, and in which order *)

Section Sending.
Context {G : Gateway}.

Lemma execute_all_app_eq (a b : list string) (c : conn) :
  execute_all (a ++ b) c = bind (execute_all a) (fun _ => execute_all b) c.
Proof.
  revert c. induction a as [|q a IH]; intros c; [reflexivity|].
  cbn [app execute_all]. unfold bind.
  destruct (execute q c) as [[rows|e] c0]; [|reflexivity].
  rewrite IH. reflexivity.
Qed.

(** A list of statements that failed, failed at one of them: those before it
    went through, it raised, and the state is the one it left. *)
Lemma execute_all_raises (query_list : list string) (c : conn) e c' :
  execute_all query_list c = (Raise e, c') ->
  exists before failing after c1,
    query_list = before ++ failing :: after
    /\ execute_all before c = (Ok tt, c1)
    /\ execute failing c1 = (Raise e, c').
Proof.
  revert c. induction query_list as [|q l IH]; intros c H; [discriminate|].
  cbn [execute_all] in H. unfold bind in H.
  destruct (execute q c) as [[rows|e0] c0] eqn:E.
  - destruct (IH c0 H) as [before [failing [after [c1 [-> [Hb Hf]]]]]].
    exists (q :: before), failing, after, c1. split; [reflexivity|]. split; [|exact Hf].
    cbn [execute_all]. unfold bind. now rewrite E.
  - injection H as -> ->. exists [], q, l, c. auto.
Qed.

End Sending.

Section SendingTraced.
Context {G : Gateway}.

Lemma traced_execute_all_ok (query_list : list string) (c : conn) log c' :
  execute_all query_list c = (Ok tt, c') ->
  execute_all (G := traced G) query_list (c, log) = (Ok tt, (c', log ++ query_list)).
Proof.
  revert c log. induction query_list as [|q l IH]; intros c log H.
  - cbn in H. injection H as <-. cbn. now rewrite app_nil_r.
  - cbn [execute_all] in *. unfold bind in *. cbn [execute traced fst snd].
    destruct (execute q c) as [[rows|e] c0]; [|discriminate].
    rewrite (IH c0 (log ++ [q]) H). now rewrite <- app_assoc.
Qed.

Lemma traced_execute_all_raise before failing after (c : conn) log c1 e c' :
  execute_all before c = (Ok tt, c1) ->
  execute failing c1 = (Raise e, c') ->
  execute_all (G := traced G) (before ++ failing :: after) (c, log)
  = (Raise e, (c', log ++ before ++ [failing])).
Proof.
  intros Hb Hf. rewrite (execute_all_app_eq (G := traced G)). unfold bind at 1.
  rewrite (traced_execute_all_ok before c log c1 Hb).
  cbn [execute_all]. unfold bind. cbn [execute traced fst snd]. rewrite Hf.
  now rewrite <- app_assoc.
Qed.

Lemma grant_statements_not_select grantee grants_list databases tables replace revoke :
  Forall (fun query => is_select query = false)
         (ClickhouseGrants.grants_query_list grantee grants_list databases tables
                                             replace revoke).
Proof.
  destruct revoke.
  - rewrite grants_query_list_revoke. apply Forall_forall. intros q Hq.
    apply in_map_iff in Hq. destruct Hq as [x [<- _]]. reflexivity.
  - rewrite grants_query_list_grant.
    destruct (list_prod databases tables) as [|first rest]; constructor.
    + reflexivity.
    + apply Forall_forall. intros q Hq.
      apply in_map_iff in Hq. destruct Hq as [x [<- _]]. reflexivity.
Qed.
End SendingTraced.

Section GrantsFurther.
Import ClickhouseGrants.
Context {G : Gateway}.

(** X1 — What [grants_func] sends.  With applicable privileges, a call that
    returns has sent the server exactly the statements it returns, one call
    each, in their order, and nothing else; a call that raises has sent the
    statements up to and including the one that failed, the earlier ones
    having gone through, and none after it.  No statement is a [SELECT]. *)
Theorem grants_func_sends grantee grants_list databases tables replace revoke c log :
  check_grants grants_list = None ->
  let query_list :=
    grants_query_list grantee grants_list databases tables replace revoke in
  (forall r c',
      grants_func grantee grants_list databases tables replace revoke c = (Ok r, c') ->
      run_queries r = query_list
      /\ grants_func (G := traced G) grantee grants_list databases tables replace revoke
                     (c, log)
         = (Ok r, (c', log ++ query_list)))
  /\ (forall e c',
         grants_func grantee grants_list databases tables replace revoke c = (Raise e, c') ->
         exists before failing after c1,
           query_list = before ++ failing :: after
           /\ execute_all before c = (Ok tt, c1)
           /\ execute failing c1 = (Raise e, c')
           /\ grants_func (G := traced G) grantee grants_list databases tables
                          replace revoke (c, log)
              = (Raise e, (c', log ++ before ++ [failing])))
  /\ Forall (fun query => is_select query = false) query_list.
Proof.
  intros Hvalid query_list. split; [|split].
  - intros r c' Hr.
    destruct (grants_func_returns _ _ _ _ _ _ _ _ _ Hvalid Hr) as [Hq [_ Hex]].
    split; [exact Hq|].
    rewrite (grants_func_valid (G := traced G)) by assumption. cbv zeta.
    rewrite Hq in Hex. rewrite (traced_execute_all_ok _ _ log _ Hex).
    rewrite grants_func_valid in Hr by assumption. cbv zeta in Hr. rewrite Hex in Hr.
    injection Hr as <-. reflexivity.
  - intros e c' Hr. rewrite grants_func_valid in Hr by assumption. cbv zeta in Hr.
    fold query_list in Hr.
    destruct (execute_all query_list c) as [[[]|e0] c0] eqn:E; [discriminate|].
    injection Hr as -> ->.
    destruct (execute_all_raises _ _ _ _ E) as [before [failing [after [c1 [Hq [Hb Hf]]]]]].
    exists before, failing, after, c1. repeat split; try assumption.
    rewrite (grants_func_valid (G := traced G)) by assumption. cbv zeta.
    fold query_list. rewrite Hq.
    now rewrite (traced_execute_all_raise before failing after c log c1 e c' Hb Hf).
  - apply grant_statements_not_select.
Qed.

(** X2 — No target, no statement.  With applicable privileges and an empty
    list of databases or an empty list of tables, [grants_func] calls the
    server for nothing and returns unchanged, with no statement and no
    message. *)
Theorem grants_func_no_target grantee grants_list databases tables replace revoke c :
  check_grants grants_list = None ->
  databases = [] \/ tables = [] ->
  grants_func grantee grants_list databases tables replace revoke c
  = (Ok {| changed := false; run_queries := [];
           grant_roles := None; revoke_grants := None; replace_grants := None;
           user_status := None; error := None; failed := None; msg := None |}, c).
Proof.
  intros Hvalid Hempty. rewrite grants_func_valid by assumption. cbv zeta.
  assert (Hnil : grants_query_list grantee grants_list databases tables replace revoke = []).
  { pose proof (truthy_grants_query_list grantee grants_list databases tables
                                          replace revoke) as Ht.
    destruct (grants_query_list grantee grants_list databases tables replace revoke);
      [reflexivity|].
    destruct Hempty as [-> | ->]; cbn in Ht; [discriminate|].
    rewrite andb_false_r in Ht. discriminate. }
  rewrite Hnil. reflexivity.
Qed.

(** X3 — Revoking privileges.  With [revoke_grants] set the statements are
    one [REVOKE ... from] per (database, table) pair in row-major order,
    whatever [replace_grants] is: none carries the replace clause, and the
    call with the other value of [replace_grants] behaves the same. *)
Theorem privilege_revoke_statements grantee grants_list databases tables replace c :
  check_grants grants_list = None ->
  let query_list := map (plain_revoke grantee grants_list) (list_prod databases tables) in
  grants_query_list grantee grants_list databases tables replace true = query_list
  /\ (forall query, In query query_list ->
                    ends_with " WITH REPLACE OPTION" query = false)
  /\ grants_func grantee grants_list databases tables replace true c
     = grants_func grantee grants_list databases tables (negb replace) true c
  /\ (forall r c',
         grants_func grantee grants_list databases tables replace true c = (Ok r, c') ->
         run_queries r = query_list).
Proof.
  intros Hvalid query_list.
  assert (Hshape := grants_query_list_revoke grantee grants_list databases tables).
  split; [apply Hshape|]. split; [|split].
  - intros query Hq. apply in_map_iff in Hq. destruct Hq as [target [<- _]].
    unfold plain_revoke.
    replace ("REVOKE " ++ join ", " grants_list ++ " on " ++ fst target ++ "."
               ++ snd target ++ " from '" ++ grantee ++ "'")%string
      with (("REVOKE " ++ join ", " grants_list ++ " on " ++ fst target ++ "."
               ++ snd target ++ " from '" ++ grantee) ++ "'")%string
      by (now rewrite !string_app_assoc).
    apply ends_with_quote.
  - rewrite !grants_func_valid by assumption. cbv zeta. now rewrite !Hshape.
  - intros r c' Hr.
    destruct (grants_func_returns _ _ _ _ _ _ _ _ _ Hvalid Hr) as [-> _]. apply Hshape.
Qed.

Lemma upper_ascii_twice (a : ascii) : upper_ascii (upper_ascii a) = upper_ascii a.
Proof. destruct a as [[] [] [] [] [] [] [] []]; reflexivity. Qed.

Lemma upper_twice (s : string) : upper (upper s) = upper s.
Proof.
  induction s as [|a s IH]; [reflexivity|].
  cbn [upper]. now rewrite upper_ascii_twice, IH.
Qed.

Lemma upper_not_dictGet (s : string) : upper s <> "dictGet".
Proof.
  intros H. pose proof (upper_twice s) as Ht. rewrite H in Ht. discriminate.
Qed.

Lemma applicable_upper (grant : string) :
  grant <> "dictGet" -> (applicable (upper grant) <-> applicable grant).
Proof.
  intros Hd. unfold applicable. rewrite upper_twice.
  pose proof (upper_not_dictGet grant). tauto.
Qed.

Lemma check_grants_upper (grants_list : list string) :
  ~ In "dictGet" grants_list ->
  (check_grants (map upper grants_list) = None <-> check_grants grants_list = None).
Proof.
  intros Hd. rewrite !check_grants_none, Forall_map.
  split; intros H; apply Forall_forall; intros g Hg;
    (assert (Hne : g <> "dictGet") by (intros ->; contradiction));
    rewrite Forall_forall in H; specialize (H g Hg);
    now apply (applicable_upper g Hne).
Qed.

(** [upper] keeps a name within the ASCII characters. *)
Lemma upper_ascii_lt (a : ascii) :
  Nat.ltb (nat_of_ascii a) 128 = true -> Nat.ltb (nat_of_ascii (upper_ascii a)) 128 = true.
Proof. destruct a as [[] [] [] [] [] [] [] []]; intros H; (exact H || reflexivity). Qed.

Lemma is_ascii_upper (s : string) : is_ascii s = true -> is_ascii (upper s) = true.
Proof.
  induction s as [|a s IH]; [reflexivity|].
  cbn [is_ascii upper]. rewrite !andb_true_iff. intros [Ha Hs].
  split; [now apply upper_ascii_lt | now apply IH].
Qed.

(** On the names made of ASCII characters, an upper-casing function that is
    [upper] there gives the check of [ClickhouseGrants]. *)
Lemma check_grants_with_ascii (str_upper : string -> string) (grants_list : list string) :
  (forall s, is_ascii s = true -> str_upper s = upper s) ->
  Forall (fun grant => is_ascii grant = true) grants_list ->
  check_grants_with str_upper grants_list = check_grants grants_list.
Proof.
  intros Hup Ha. induction Ha as [|grant rest Hg _ IH]; [reflexivity|].
  cbn [check_grants_with check_grants].
  unfold not_applicable_with, grant_error_with, not_applicable, grant_error.
  now rewrite (Hup grant Hg), IH.
Qed.

(** X4 — Validation does not look at the case of a privilege, except for
    [dictGet].  For the names made of ASCII characters, and whatever
    [str.upper] does of the other names (of the ASCII ones it raises the
    letters a-z and keeps the rest, as [upper] does): a list of privileges
    without [dictGet] passes the check exactly when the list of its
    upper-cased names does; [dictGet] passes as written and is refused in
    upper case. *)
Theorem validation_ignores_case (str_upper : string -> string)
        (grants_list : list string) :
  (forall s, is_ascii s = true -> str_upper s = upper s) ->
  Forall (fun grant => is_ascii grant = true) grants_list ->
  ~ In "dictGet" grants_list ->
  (check_grants_with str_upper (map str_upper grants_list) = None
   <-> check_grants_with str_upper grants_list = None)
  /\ check_grants_with str_upper ["dictGet"] = None
  /\ check_grants_with str_upper [str_upper "dictGet"]
     = Some ("DICTGET not in applicable grants: "
               ++ join ", " applicable_grants ++ ".")%string.
Proof.
  intros Hup Ha Hd.
  assert (Hmap : map str_upper grants_list = map upper grants_list).
  { apply map_ext_in. intros g Hg. apply Hup.
    rewrite Forall_forall in Ha. now apply Ha. }
  assert (Ha' : Forall (fun grant => is_ascii grant = true) (map upper grants_list)).
  { apply Forall_map. eapply Forall_impl; [|exact Ha].
    intros g Hg. now apply is_ascii_upper. }
  split; [|split].
  - rewrite Hmap, !(check_grants_with_ascii str_upper) by assumption.
    now apply check_grants_upper.
  - cbn [check_grants_with]. unfold not_applicable_with.
    now rewrite String.eqb_refl, andb_false_r.
  - rewrite (Hup "dictGet" eq_refl).
    rewrite (check_grants_with_ascii str_upper);
      [reflexivity | assumption | now repeat constructor].
Qed.
End GrantsFurther.

Section RolesFurther.
Import ClickhouseGrants.
Context {G : Gateway}.

Lemma traced_first_column (rows : list row) (s : @conn (traced G)) :
  first_column (G := traced G) rows s = (fst (first_column (G := G) rows (fst s)), s).
Proof.
  induction rows as [|r rows IH]; [reflexivity|].
  cbn [first_column]. unfold bind. destruct r as [|v r]; [reflexivity|].
  cbn [item0]. unfold ret at 1 3. rewrite IH.
  destruct (first_column rows (fst s)) as [[vs|e] c']; reflexivity.
Qed.

Lemma traced_ch_user_exists grantee (c : conn) log :
  ch_user_exists (G := traced G) grantee (c, log)
  = (fst (ch_user_exists grantee c),
     (snd (ch_user_exists grantee c), log ++ [user_exists_query grantee])).
Proof.
  unfold ch_user_exists, bind. cbn [execute traced fst snd].
  destruct (execute (user_exists_query grantee) c) as [[rows|e] c0]; [|reflexivity].
  destruct rows as [|[|[] r] rows]; reflexivity.
Qed.

Lemma traced_get_user_roles grantee roles_list (c : conn) log user_roles has c1 :
  get_user_roles grantee roles_list c = (Ok (user_roles, has), c1) ->
  get_user_roles (G := traced G) grantee roles_list (c, log)
  = (Ok (user_roles, has),
     (c1, log ++ [user_exists_query grantee; user_roles_query grantee])).
Proof.
  intros H.
  destruct (get_user_roles_inv _ _ _ _ _ _ H) as [c0 [rows [He [Hx [Hf Hhas]]]]].
  unfold get_user_roles, bind at 1. rewrite traced_ch_user_exists, He.
  cbn [fst snd negb]. unfold bind. cbn [execute traced fst snd]. rewrite Hx.
  rewrite traced_first_column. cbn [fst]. rewrite Hf. cbn [fst]. unfold ret.
  rewrite Hhas, <- app_assoc. reflexivity.
Qed.

Lemma role_statements_not_select grantee roles_list roles_init replace revoke
      user_roles has :
  Forall (fun query => is_select query = false)
         (grant_roles_query_list grantee roles_list roles_init replace revoke
                                 user_roles has).
Proof.
  unfold grant_roles_query_list. destruct revoke.
  - apply Forall_forall. intros q Hq. apply in_map_iff in Hq.
    destruct Hq as [x [<- _]]. reflexivity.
  - apply Forall_app. split.
    + destruct (roles_init && negb has); [|constructor].
      apply Forall_forall. intros q Hq. apply in_map_iff in Hq.
      destruct Hq as [x [<- _]]. reflexivity.
    + destruct replace; [|destruct (negb has)]; repeat constructor.
Qed.

(** X5 — A grantee the server does not count among its users.  When the
    count of [system.users] for the grantee is zero (a name that is unknown,
    or the name of a role), [grant_roles_func] raises [NameError] for the
    name [module] whatever the roles and flags are, having sent the server
    the count query and nothing else; [main] turns it into a failure with
    that exception as its message. *)
Theorem grant_roles_unknown_grantee grantee roles_list roles_init replace revoke c c1 log :
  ch_user_exists grantee c = (Ok false, c1) ->
  grant_roles_func grantee roles_list roles_init replace revoke c
  = (Raise (NameError "module"), c1)
  /\ grant_roles_func (G := traced G) grantee roles_list roles_init replace revoke (c, log)
     = (Raise (NameError "module"), (c1, log ++ [user_exists_query grantee]))
  /\ forall p,
      p_grantee_name p = grantee -> p_grant_roles p = roles_list ->
      p_init_roles p = roles_init -> p_replace_grants p = replace ->
      p_revoke_grants p = revoke ->
      roles_list <> [] -> p_grants p = [] ->
      main true false p c = (fail_json (Native (NameError "module")), c1).
Proof.
  intros He.
  assert (H1 : grant_roles_func grantee roles_list roles_init replace revoke c
               = (Raise (NameError "module"), c1)).
  { unfold grant_roles_func, get_user_roles, bind. now rewrite He. }
  split; [exact H1|]. split.
  - unfold grant_roles_func, get_user_roles, bind.
    rewrite traced_ch_user_exists, He. reflexivity.
  - intros p <- <- <- <- <- Hne Hg. unfold main, make_checks_and_run, run_or_fail.
    cbv zeta. cbn [negb]. rewrite Hg.
    destruct (p_grant_roles p) as [|role roles]; [congruence|].
    cbn [truthy andb]. now rewrite H1.
Qed.

(** X6 — What [grant_roles_func] sends.  Once the roles of the grantee are
    observed, a call that returns has sent the server the count query, the
    role query and then exactly the statements it returns, in their order;
    a call that raises after the observation has sent the two queries and
    the statements up to and including the one that failed.  No statement
    is a [SELECT]. *)
Theorem grant_roles_func_sends grantee roles_list roles_init replace revoke c log
        user_roles has c1 :
  get_user_roles grantee roles_list c = (Ok (user_roles, has), c1) ->
  let query_list :=
    grant_roles_query_list grantee roles_list roles_init replace revoke user_roles has in
  let queries := [user_exists_query grantee; user_roles_query grantee] in
  (forall r c2,
      grant_roles_func grantee roles_list roles_init replace revoke c = (Ok r, c2) ->
      run_queries r = query_list
      /\ grant_roles_func (G := traced G) grantee roles_list roles_init replace revoke
                          (c, log)
         = (Ok r, (c2, log ++ queries ++ query_list)))
  /\ (forall e c2,
         grant_roles_func grantee roles_list roles_init replace revoke c = (Raise e, c2) ->
         exists before failing after cm,
           query_list = before ++ failing :: after
           /\ execute_all before c1 = (Ok tt, cm)
           /\ execute failing cm = (Raise e, c2)
           /\ grant_roles_func (G := traced G) grantee roles_list roles_init replace
                               revoke (c, log)
              = (Raise e, (c2, log ++ queries ++ before ++ [failing])))
  /\ Forall (fun query => is_select query = false) query_list.
Proof.
  intros Hobs query_list queries.
  pose proof (traced_get_user_roles _ _ _ log _ _ _ Hobs) as Htr.
  pose proof (grant_roles_func_observed grantee roles_list roles_init replace revoke
                c user_roles has c1 Hobs) as Hrun.
  pose proof (grant_roles_func_observed (G := traced G) grantee roles_list roles_init
                replace revoke (c, log) user_roles has _ Htr) as Hrun'.
  cbv zeta in Hrun, Hrun'. fold query_list in Hrun, Hrun'. fold queries in Hrun'.
  split; [|split].
  - intros r c2 Hr. rewrite Hrun in Hr.
    destruct (execute_all query_list c1) as [[[]|e] c3] eqn:E; [|discriminate].
    injection Hr as <- <-. split; [reflexivity|].
    rewrite Hrun', (traced_execute_all_ok _ _ (log ++ queries) _ E).
    now rewrite <- app_assoc.
  - intros e c2 Hr. rewrite Hrun in Hr.
    destruct (execute_all query_list c1) as [[[]|e0] c3] eqn:E; [discriminate|].
    injection Hr as -> ->.
    destruct (execute_all_raises _ _ _ _ E) as [before [failing [after [cm [Hq [Hb Hf]]]]]].
    exists before, failing, after, cm. repeat split; try assumption.
    rewrite Hrun', Hq.
    rewrite (traced_execute_all_raise before failing after c1 (log ++ queries) cm e c2 Hb Hf).
    now rewrite <- app_assoc.
  - apply role_statements_not_select.
Qed.

(** X7 — Roles that are all held.  When every requested role is among the
    roles observed for the grantee, a grant without replace sends nothing
    and returns unchanged with the observation, also with [init_roles] set;
    a grant with replace is the one [GRANT ... WITH REPLACE OPTION], with no
    [CREATE ROLE] before it. *)
Theorem grant_roles_all_held grantee roles_list c user_roles has c1 :
  get_user_roles grantee roles_list c = (Ok (user_roles, has), c1) ->
  (forall role, In role roles_list -> In (VStr role) user_roles) ->
  (forall roles_init,
      grant_roles_func grantee roles_list roles_init false false c
      = (Ok {| changed := false; run_queries := [];
               grant_roles := Some roles_list;
               revoke_grants := Some false;
               replace_grants := Some false;
               user_status := Some (user_roles, true);
               error := None; failed := None; msg := None |}, c1))
  /\ (forall roles_init,
         grant_roles_query_list grantee roles_list roles_init true false user_roles has
         = [grant_roles_replace_query roles_list grantee]).
Proof.
  intros Hobs Hall.
  destruct (get_user_roles_inv _ _ _ _ _ _ Hobs) as [_ [_ [_ [_ [_ Hhas]]]]].
  rewrite (forallb_all_held _ _ Hall) in Hhas. subst has. split.
  - intros roles_init. rewrite (grant_roles_func_observed _ _ _ _ _ _ _ _ _ Hobs).
    cbv zeta. unfold grant_roles_query_list. cbn [negb]. rewrite andb_false_r.
    reflexivity.
  - intros roles_init. unfold grant_roles_query_list. cbn [negb].
    now rewrite andb_false_r.
Qed.
End RolesFurther.

(** ** Computations that only read *)

Lemma reads_only_ret {A : Type} (a : A) : reads_only_family (fun G => @ret G A a).
Proof. intros G c log. exists []. rewrite app_nil_r. split; [reflexivity | constructor]. Qed.

Lemma reads_only_raise {A : Type} (e : exn) : reads_only_family (fun G => @raise G A e).
Proof. intros G c log. exists []. rewrite app_nil_r. split; [reflexivity | constructor]. Qed.

Lemma reads_only_execute (query : string) :
  is_select query = true -> reads_only_family (fun G => @execute G query).
Proof.
  intros H G c log. exists [query]. split; [|now repeat constructor].
  cbn [execute traced fst snd]. now destruct (execute query c).
Qed.

Lemma reads_only_bind {A B : Type} (f : forall G : Gateway, @M G A)
      (g : forall G : Gateway, A -> @M G B) :
  reads_only_family f ->
  (forall a, reads_only_family (fun G => g G a)) ->
  reads_only_family (fun G => bind (f G) (g G)).
Proof.
  intros Hf Hg G c log. destruct (Hf G c log) as [r1 [E1 F1]].
  unfold bind. rewrite E1. destruct (f G c) as [[a|e] c1]; cbn [fst snd].
  - destruct (Hg a G c1 (log ++ r1)) as [r2 [E2 F2]]. rewrite E2.
    exists (r1 ++ r2). rewrite app_assoc. split; [reflexivity|].
    apply Forall_app. now split.
  - exists r1. now split.
Qed.

Lemma reads_only_item0 {A : Type} (ls : list A) :
  reads_only_family (fun G => @item0 G A ls).
Proof. destruct ls; [apply reads_only_raise | apply reads_only_ret]. Qed.

Lemma reads_only_first_column (rows : list row) :
  reads_only_family (fun G => @first_column G rows).
Proof.
  induction rows as [|r rows IH]; [apply reads_only_ret|].
  cbn [first_column].
  apply (reads_only_bind (fun G => @item0 G value r)
           (fun G v => bind (@first_column G rows) (fun vs => @ret G _ (v :: vs)))).
  - apply reads_only_item0.
  - intros v.
    apply (reads_only_bind (fun G => @first_column G rows)
             (fun G vs => @ret G _ (v :: vs))); [exact IH|].
    intros vs. apply reads_only_ret.
Qed.

Ltac reads_bind :=
  match goal with
  | |- reads_only_family (fun G => @bind G ?A ?B (@?f G) (@?g G)) =>
      apply (reads_only_bind f g); [|intros ?]
  end.

Ltac reads_leaf :=
  cbv beta;
  first [ apply reads_only_ret
        | apply reads_only_raise
        | apply reads_only_item0
        | apply reads_only_first_column
        | apply reads_only_execute; reflexivity ].

Section UsersRead.
Import ClickhouseUsers.

Lemma reads_only_ch_user_exists user :
  reads_only_family (fun G => @ch_user_exists G user).
Proof.
  unfold ch_user_exists. reads_bind; [reads_leaf|]. cbv beta.
  reads_bind; [reads_leaf|]. cbv beta.
  reads_bind; [reads_leaf|]. cbv beta.
  destruct a1; reads_leaf.
Qed.

Lemma reads_only_ch_user_roles user roles :
  reads_only_family (fun G => @ch_user_roles G user roles).
Proof.
  unfold ch_user_roles. reads_bind; [reads_leaf|]. cbv beta.
  reads_bind; [reads_leaf|]. reads_leaf.
Qed.

Lemma reads_only_ch_user_profiles user profile :
  reads_only_family (fun G => @ch_user_profiles G user profile).
Proof.
  unfold ch_user_profiles. reads_bind; [reads_leaf|]. cbv beta.
  reads_bind; [reads_leaf|]. reads_leaf.
Qed.

Lemma reads_only_ch_user_quotas user quota :
  reads_only_family (fun G => @ch_user_quotas G user quota).
Proof.
  unfold ch_user_quotas, append_user. reads_bind; [reads_leaf|]. cbv beta.
  reads_bind; [reads_leaf|]. cbv beta.
  reads_bind; [reads_leaf|]. cbv beta.
  reads_bind.
  - destruct (truthy a1); [|reads_leaf].
    reads_bind; [reads_leaf|]. reads_leaf.
  - cbv beta zeta. reads_bind; [destruct a2; reads_leaf|]. reads_leaf.
Qed.

Lemma reads_only_create_update_user_queries user password roles quota profile :
  reads_only_family
    (fun G => @create_update_user_queries G user password roles quota profile).
Proof.
  unfold create_update_user_queries.
  reads_bind; [apply reads_only_ch_user_exists|]. cbv beta zeta.
  reads_bind.
  { destruct (negb (String.eqb quota "")); [|reads_leaf].
    reads_bind; [apply reads_only_ch_user_quotas|].
    destruct a0 as [[uq hq] qa]. reads_leaf. }
  destruct a0 as [[ql1 sq] shq]. cbv beta iota.
  reads_bind.
  { destruct (negb (String.eqb profile "")); [|reads_leaf].
    reads_bind; [apply reads_only_ch_user_profiles|].
    destruct a0 as [up hp]. reads_leaf. }
  destruct a0 as [[ql2 sp] shp]. cbv beta iota.
  reads_bind.
  { destruct (truthy roles); [|reads_leaf].
    reads_bind; [apply reads_only_ch_user_roles|].
    destruct a0 as [ur hr]. reads_leaf. }
  destruct a0 as [[ql3 sr] shr]. reads_leaf.
Qed.
End UsersRead.

Section UsersFurther.
Import ClickhouseUsers.
Context {G : Gateway}.

Lemma user_statements_not_select user password roles quota profile c query_list st c1 :
  create_update_user_queries user password roles quota profile c
  = (Ok (query_list, st), c1) ->
  Forall (fun query => is_select query = false) query_list.
Proof.
  unfold create_update_user_queries, bind, ret.
  destruct (ch_user_exists user c) as [[ex|e] c0]; [|discriminate].
  destruct (negb (String.eqb quota ""));
    [destruct (ch_user_quotas user quota c0) as [[[[uq hq] qa]|e] cq]; [|discriminate]|];
    (destruct (negb (String.eqb profile ""));
     [match goal with
      | |- context [ch_user_profiles user profile ?c'] =>
          destruct (ch_user_profiles user profile c') as [[[up hp]|e] cp]; [|discriminate]
      end|]);
    (destruct (truthy roles);
     [match goal with
      | |- context [ch_user_roles user roles ?c'] =>
          destruct (ch_user_roles user roles c') as [[[ur hr]|e] cr]; [|discriminate]
      end|]);
    intros H; injection H as <- _ _;
    repeat match goal with
           | |- context [negb ?b] => destruct b; cbn [negb]
           end;
    cbn [app]; repeat constructor.
Qed.

Lemma bind_run {A B : Type} (m : M A) (f : A -> M B) (c : conn) a c1 :
  m c = (Ok a, c1) -> bind m f c = f a c1.
Proof. intros H. unfold bind. now rewrite H. Qed.

(** X8 — [create_update_user] reads first and writes last.  Whatever the
    server answers, the queries it is sent by one call are first the
    [SELECT]s and then the statements: nothing is observed after the first
    statement of the call has been sent.  The statements sent are those the
    call returns when it returns, and keeping the record changes nothing of
    the outcome. *)
Theorem create_update_user_reads_first user password roles quota profile (c : conn) log :
  exists reads sent,
    create_update_user (G := traced G) user password roles quota profile (c, log)
    = (fst (create_update_user user password roles quota profile c),
       (snd (create_update_user user password roles quota profile c),
        log ++ reads ++ sent))
    /\ Forall (fun query => is_select query = true) reads
    /\ Forall (fun query => is_select query = false) sent
    /\ forall r,
        fst (create_update_user user password roles quota profile c) = Ok r ->
        sent = run_queries r.
Proof.
  destruct (reads_only_create_update_user_queries user password roles quota profile
              G c log) as [reads [E F]].
  unfold create_update_user, bind at 1 3 5 7. rewrite E.
  destruct (create_update_user_queries user password roles quota profile c)
    as [[[query_list st]|e] c1] eqn:Q; cbn [fst snd].
  2:{ exists reads, []. rewrite app_nil_r. repeat split; try assumption; try constructor.
      intros r H. discriminate. }
  pose proof (user_statements_not_select _ _ _ _ _ _ _ _ _ Q) as Hns.
  unfold bind, ret.
  destruct (execute_all query_list c1) as [[[]|e] c2] eqn:X.
  - exists reads, query_list.
    rewrite (traced_execute_all_ok _ _ (log ++ reads) _ X). cbn [fst snd].
    rewrite <- app_assoc. repeat split; try assumption.
    intros r H. now injection H as <-.
  - destruct (execute_all_raises _ _ _ _ X) as [before [failing [after [cm [Hq [Hb Hf]]]]]].
    exists reads, (before ++ [failing]). rewrite Hq.
    rewrite (traced_execute_all_raise before failing after c1 (log ++ reads) cm e c2 Hb Hf).
    cbn [fst snd]. rewrite <- app_assoc. repeat split; try assumption.
    + rewrite Hq in Hns. apply Forall_app in Hns. destruct Hns as [H1 H2].
      apply Forall_app. split; [exact H1|]. inversion H2; subst. now repeat constructor.
    + intros r H. discriminate.
Qed.

(** X9 — A user whose password is given again.  For a user the server
    already counts, the password plays no part: two calls that differ in the
    password only do the same and return the same. *)
Theorem existing_user_password_unused user roles quota profile c c1 :
  ch_user_exists user c = (Ok true, c1) ->
  forall password other,
    create_update_user user password roles quota profile c
    = create_update_user user other roles quota profile c.
Proof.
  intros He password other.
  assert (Hq : create_update_user_queries user password roles quota profile c
               = create_update_user_queries user other roles quota profile c).
  { unfold create_update_user_queries.
    rewrite !(bind_run (ch_user_exists user) _ c true c1 He). reflexivity. }
  unfold create_update_user, bind at 1 3. now rewrite Hq.
Qed.

Section ReadOnlyServer.
Hypothesis RO : read_only G.

(** X10 — Nothing to do.  Against a server that answers its [SELECT]s
    without changing: when the user exists and each concern that is asked for
    is found satisfied (the quota applies to the user, the profile is
    assigned, every role is held), [create_update_user] sends no statement,
    returns unchanged with an empty list and leaves the server as it was. *)
Theorem create_update_user_settled user password roles quota profile c
        uq members up ur :
  fst (ch_user_exists user c) = Ok true ->
  (quota <> "" -> fst (ch_user_quotas user quota c) = Ok (uq, true, members)) ->
  (profile <> "" -> fst (ch_user_profiles user profile c) = Ok (up, true)) ->
  (roles <> [] -> fst (ch_user_roles user roles c) = Ok (ur, true)) ->
  exists st,
    create_update_user user password roles quota profile c
    = (Ok {| changed := false; run_queries := []; status := st |}, c)
    /\ user_exists st = true.
Proof.
  intros He Hq Hp Hr.
  pose proof (create_update_user_queries_parts RO user password roles quota profile c
                true uq true members up true ur true He Hq Hp Hr) as Hparts.
  rewrite !andb_false_r in Hparts. cbn [app] in Hparts.
  rewrite (create_update_user_runs _ _ _ _ _ _ _ _ _ Hparts).
  cbn [execute_all]. unfold ret. eexists. split; reflexivity.
Qed.

(** X11 — Deleting twice.  Against a server that answers its [SELECT]s
    without changing and on which a [DROP USER] that succeeded removes the
    user: after a [delete_user] that returned, the same call returns
    unchanged, without a query, and leaves the server as it is. *)
Theorem delete_user_twice user :
  drop_takes_effect G user ->
  forall c r1 c1,
    delete_user user c = (Ok r1, c1) ->
    delete_user user c1
    = (Ok {| del_changed := false; del_query := None; del_user_exists := false |}, c1).
Proof.
  intros Hdrop c r1 c1 H1.
  assert (Hgone : ch_user_exists user c1 = (Ok false, c1)).
  { unfold delete_user, bind in H1.
    pose proof (ch_user_exists_conn RO user c) as Hc.
    destruct (ch_user_exists user c) as [[[|]|e] c0] eqn:E; cbn [negb] in H1;
      try discriminate; cbn [snd] in Hc; subst c0.
    - destruct (execute (drop_query user) c) as [[rows|e] c2] eqn:X; [|discriminate].
      unfold ret in H1. injection H1 as _ <-. apply (Hdrop c rows c2 X).
    - unfold ret in H1. injection H1 as _ <-. exact E. }
  unfold delete_user, bind. rewrite Hgone. reflexivity.
Qed.
End ReadOnlyServer.

(** X12 — Exceptions in [main] of the users module.  When the server raises
    on the count query, a call for the state [present] ends in a failure
    whose message is taken from the exception, while a call for the state
    [absent] lets the exception leave [main]: [delete_user] is not called
    inside a [try].  Any other state fails without a call to the server. *)
Theorem users_main_exceptions (p : module_params) c :
  (forall e c',
      execute (user_exists_query (p_user_name p)) c = (Raise e, c') ->
      (p_user_state p = "present" ->
       main true false p c
       = (fail_json match e with
                    | ServerException message => DbError message
                    | _ => Native e
                    end, c'))
      /\ (p_user_state p = "absent" -> main true false p c = (uncaught e, c')))
  /\ (p_user_state p <> "present" -> p_user_state p <> "absent" ->
      main true false p c = (fail_json UnsupportedState, c)).
Proof.
  split.
  - intros e c' Hx.
    assert (He : ch_user_exists (p_user_name p) c = (Raise e, c')).
    { unfold ch_user_exists, bind. now rewrite Hx. }
    split; intros Hs; unfold main; cbv zeta; cbn [negb]; rewrite Hs; cbn [String.eqb].
    + unfold create_update_user, create_update_user_queries, bind. rewrite He.
      destruct e; reflexivity.
    + unfold delete_user, bind. rewrite He. reflexivity.
  - intros Hp Ha. apply String.eqb_neq in Hp, Ha.
    unfold main. cbv zeta. cbn [negb]. now rewrite Hp, Ha.
Qed.
End UsersFurther.

(** ** The further properties on the reference server *)

Section ServerUsers.
Import ClickhouseUsers Server.

Lemma server_ch_user_exists user (c : state) :
  parse (user_exists_query user) = Some (SelectUserCount user) ->
  ch_user_exists (G := gateway) user c = (Ok (str_in user (users c)), c).
Proof.
  intros P. unfold ch_user_exists, bind, ret, raise.
  cbn [execute gateway]. unfold run. rewrite P.
  replace (is_select (user_exists_query user)) with true by reflexivity.
  cbn [answer]. unfold item0, ret. cbv beta iota. now rewrite count_positive.
Qed.

Lemma str_in_removed user (l : list string) :
  str_in user (filter (fun u => negb (String.eqb u user)) l) = false.
Proof.
  unfold str_in. induction l as [|x l IH]; [reflexivity|].
  cbn [filter]. destruct (String.eqb x user) eqn:E; cbn [negb]; [exact IH|].
  cbn [existsb]. rewrite String.eqb_sym, E. exact IH.
Qed.

Lemma server_drop_takes_effect user :
  parse (user_exists_query user) = Some (SelectUserCount user) ->
  parse (drop_query user) = Some (DropUser user) ->
  drop_takes_effect gateway user.
Proof.
  intros P1 P2 c rows c' Hx.
  cbn [execute gateway] in Hx. unfold run in Hx. rewrite P2 in Hx.
  replace (is_select (drop_query user)) with false in Hx by reflexivity.
  cbn [perform] in Hx. destruct (str_in user (users c)); [|discriminate].
  injection Hx as _ <-.
  rewrite (server_ch_user_exists _ _ P1). cbn [users]. now rewrite str_in_removed.
Qed.
End ServerUsers.

Section FurtherOnTheServer.
Import ClickhouseGrants.

Lemma grants_func_sends_witness :
  check_grants ["select"] = None
  /\ exists r c',
      grants_func (G := traced Server.gateway) "alice" ["select"] ["d1"] ["t1"; "t2"]
                  true false (Server.sample, [])
      = (Ok r, (c', ["GRANT select on d1.t1 to 'alice' WITH REPLACE OPTION";
                     "GRANT select on d1.t2 to 'alice'"])).
Proof.
  assert (H : check_grants ["select"] = None) by reflexivity.
  split; [exact H|].
  destruct (grants_func (G := Server.gateway) "alice" ["select"] ["d1"] ["t1"; "t2"]
                        true false Server.sample) as [[r|e] c'] eqn:E.
  2:{ exfalso. vm_compute in E. discriminate. }
  exists r, c'.
  exact (proj2 (proj1 (grants_func_sends (G := Server.gateway) "alice" ["select"] ["d1"]
                         ["t1"; "t2"] true false Server.sample [] H) r c' E)).
Defined.

Lemma grants_func_no_target_witness :
  check_grants ["select"] = None
  /\ grants_func (G := Server.gateway) "alice" ["select"] ["default"] [] false false
                 Server.sample
     = (Ok {| changed := false; run_queries := [];
              grant_roles := None; revoke_grants := None; replace_grants := None;
              user_status := None; error := None; failed := None; msg := None |},
        Server.sample).
Proof.
  assert (H : check_grants ["select"] = None) by reflexivity.
  split; [exact H|].
  exact (grants_func_no_target (G := Server.gateway) "alice" ["select"] ["default"] []
           false false Server.sample H (or_intror eq_refl)).
Defined.

Lemma privilege_revoke_statements_witness :
  check_grants ["delete"] = None
  /\ grants_query_list "reader_role" ["delete"] ["d1"; "d2"] ["t1"] true true
     = ["REVOKE delete on d1.t1 from 'reader_role'";
        "REVOKE delete on d2.t1 from 'reader_role'"].
Proof.
  assert (H : check_grants ["delete"] = None) by reflexivity.
  split; [exact H|].
  exact (proj1 (privilege_revoke_statements (G := Server.gateway) "reader_role" ["delete"]
                  ["d1"; "d2"] ["t1"] true Server.sample H)).
Defined.

Lemma validation_ignores_case_witness :
  (forall s, is_ascii s = true -> upper s = upper s)
  /\ Forall (fun grant => is_ascii grant = true) ["Select"; "insert"]
  /\ ~ In "dictGet" ["Select"; "insert"]
  /\ (check_grants_with upper (map upper ["Select"; "insert"]) = None
      <-> check_grants_with upper ["Select"; "insert"] = None).
Proof.
  assert (Hup : forall s, is_ascii s = true -> upper s = upper s) by reflexivity.
  assert (Ha : Forall (fun grant => is_ascii grant = true) ["Select"; "insert"]).
  { repeat constructor. }
  assert (H : ~ In "dictGet" ["Select"; "insert"]).
  { intros [E|[E|[]]]; discriminate. }
  split; [exact Hup | split; [exact Ha | split; [exact H|]]].
  exact (proj1 (validation_ignores_case upper ["Select"; "insert"] Hup Ha H)).
Defined.

Lemma grant_roles_unknown_grantee_witness :
  ch_user_exists (G := Server.gateway) "reader_role" Server.sample = (Ok false, Server.sample)
  /\ grant_roles_func (G := traced Server.gateway) "reader_role" ["reader"] true false false
                      (Server.sample, [])
     = (Raise (NameError "module"),
        (Server.sample, ["SELECT count() FROM system.users WHERE name = 'reader_role'"])).
Proof.
  assert (H : ch_user_exists (G := Server.gateway) "reader_role" Server.sample
              = (Ok false, Server.sample)) by reflexivity.
  split; [exact H|].
  exact (proj1 (proj2 (grant_roles_unknown_grantee (G := Server.gateway) "reader_role"
                         ["reader"] true false false Server.sample Server.sample [] H))).
Defined.

Lemma grant_roles_func_sends_witness :
  get_user_roles (G := Server.gateway) "alice" ["writer"] Server.sample
  = (Ok ([VStr "reader"], false), Server.sample)
  /\ exists r c',
      grant_roles_func (G := traced Server.gateway) "alice" ["writer"] true false false
                       (Server.sample, [])
      = (Ok r, (c', ["SELECT count() FROM system.users WHERE name = 'alice'";
                     "SELECT granted_role_name FROM system.role_grants WHERE user_name = 'alice';";
                     "CREATE ROLE IF NOT EXISTS writer";
                     "GRANT writer to 'alice'"])).
Proof.
  assert (H : get_user_roles (G := Server.gateway) "alice" ["writer"] Server.sample
              = (Ok ([VStr "reader"], false), Server.sample)) by reflexivity.
  split; [exact H|].
  destruct (grant_roles_func (G := Server.gateway) "alice" ["writer"] true false false
                             Server.sample) as [[r|e] c'] eqn:E.
  2:{ exfalso. vm_compute in E. discriminate. }
  exists r, c'.
  exact (proj2 (proj1 (grant_roles_func_sends (G := Server.gateway) "alice" ["writer"]
                         true false false Server.sample [] [VStr "reader"] false
                         Server.sample H) r c' E)).
Defined.

Lemma grant_roles_all_held_witness :
  get_user_roles (G := Server.gateway) "alice" ["reader"] Server.sample
  = (Ok ([VStr "reader"], true), Server.sample)
  /\ grant_roles_func (G := Server.gateway) "alice" ["reader"] true false false
                      Server.sample
     = (Ok {| changed := false; run_queries := [];
              grant_roles := Some ["reader"];
              revoke_grants := Some false;
              replace_grants := Some false;
              user_status := Some ([VStr "reader"], true);
              error := None; failed := None; msg := None |}, Server.sample).
Proof.
  assert (H : get_user_roles (G := Server.gateway) "alice" ["reader"] Server.sample
              = (Ok ([VStr "reader"], true), Server.sample)) by reflexivity.
  split; [exact H|].
  refine (proj1 (grant_roles_all_held (G := Server.gateway) "alice" ["reader"]
                   Server.sample [VStr "reader"] true Server.sample H _) true).
  intros role [<-|[]]. now left.
Defined.
End FurtherOnTheServer.

Section UsersFurtherOnTheServer.
Import ClickhouseUsers.

Lemma existing_user_password_unused_witness :
  ch_user_exists (G := Server.gateway) "alice" Server.sample = (Ok true, Server.sample)
  /\ create_update_user (G := Server.gateway) "alice" "first" ["writer"] "q1" "p1"
                        Server.sample
     = create_update_user (G := Server.gateway) "alice" "second" ["writer"] "q1" "p1"
                          Server.sample.
Proof.
  assert (H : ch_user_exists (G := Server.gateway) "alice" Server.sample
              = (Ok true, Server.sample)) by reflexivity.
  split; [exact H|].
  exact (existing_user_password_unused (G := Server.gateway) "alice" ["writer"] "q1" "p1"
           Server.sample Server.sample H "first" "second").
Defined.

Lemma create_update_user_settled_witness :
  read_only Server.gateway
  /\ exists st,
      create_update_user (G := Server.gateway) "bob" "secret" [] "q1" "p1" Server.sample
      = (Ok {| changed := false; run_queries := []; status := st |}, Server.sample)
      /\ user_exists st = true.
Proof.
  split; [exact server_read_only|].
  exact (create_update_user_settled (G := Server.gateway) server_read_only
           "bob" "secret" [] "q1" "p1" Server.sample
           [VStr "q1"] ["bob"; "bob"] [VStr "p1"] []
           eq_refl (fun _ => eq_refl) (fun _ => eq_refl)
           (fun H => match H eq_refl with end)).
Defined.

Lemma delete_user_twice_witness :
  read_only Server.gateway
  /\ drop_takes_effect Server.gateway "bob"
  /\ exists r1 c1,
      delete_user (G := Server.gateway) "bob" Server.sample = (Ok r1, c1)
      /\ del_changed r1 = true
      /\ delete_user (G := Server.gateway) "bob" c1
         = (Ok {| del_changed := false; del_query := None; del_user_exists := false |}, c1).
Proof.
  assert (Hd : drop_takes_effect Server.gateway "bob")
    by exact (server_drop_takes_effect "bob" eq_refl eq_refl).
  split; [exact server_read_only | split; [exact Hd|]].
  destruct (delete_user (G := Server.gateway) "bob" Server.sample) as [[r1|e] c1] eqn:E.
  2:{ exfalso. vm_compute in E. discriminate. }
  exists r1, c1. split; [reflexivity|]. split.
  - vm_compute in E. injection E as <- _. reflexivity.
  - exact (delete_user_twice (G := Server.gateway) server_read_only "bob" Hd
             Server.sample r1 c1 E).
Defined.

Lemma users_main_exceptions_witness :
  let p := {| p_address := "127.0.0.1"; p_login_user := "default";
              p_login_password := ""; p_user_name := "bob"; p_user_password := "";
              p_user_quota := ""; p_user_profile := ""; p_user_roles := [];
              p_user_state := "absent" |} in
  execute (Gateway := unreachable) (user_exists_query (p_user_name p)) tt
  = (Raise (ServerException "DB::Exception: Connection refused."), tt)
  /\ main (G := unreachable) true false p tt
     = (uncaught (ServerException "DB::Exception: Connection refused."), tt).
Proof.
  intros p.
  assert (H : execute (Gateway := unreachable) (user_exists_query (p_user_name p)) tt
              = (Raise (ServerException "DB::Exception: Connection refused."), tt))
    by reflexivity.
  split; [exact H|].
  exact (proj2 (proj1 (users_main_exceptions (G := unreachable) p tt) _ tt H) eq_refl).
Defined.
End UsersFurtherOnTheServer.

(** ** Running [create_update_user] twice *)

Section UsersTwice.
Import ClickhouseUsers.
Context {G : Gateway}.
Hypothesis RO : read_only G.

Lemma stage_keeps (cond : bool) (statement : string) (Q : conn -> Prop) c c' :
  execute_all (if cond then [statement] else []) c = (Ok tt, c') ->
  (cond = true -> keeps Q statement) ->
  Q c -> Q c'.
Proof.
  destruct cond; cbn [execute_all]; unfold bind, ret.
  - intros H Hk. destruct (execute statement c) as [[rows|e] c0] eqn:E; [|discriminate].
    injection H as <-. apply (Hk eq_refl c rows c0 E).
  - intros H _. now injection H as <-.
Qed.

Lemma stage_establishes (statement : string) (P : conn -> Prop) c c' :
  execute_all [statement] c = (Ok tt, c') ->
  establishes P statement ->
  P c'.
Proof.
  cbn [execute_all]. unfold bind, ret. intros H He.
  destruct (execute statement c) as [[rows|e] c0] eqn:E; [|discriminate].
  injection H as <-. apply (He c rows c0 E).
Qed.

(** With everything found satisfied there is nothing to send. *)
Lemma create_update_user_nothing_to_do user password roles quota profile c :
  user_known user c ->
  (quota <> "" -> quota_applied user quota c) ->
  (profile <> "" -> profile_assigned user profile c) ->
  (roles <> [] -> roles_held user roles c) ->
  exists st,
    create_update_user user password roles quota profile c
    = (Ok {| changed := false; run_queries := []; status := st |}, c).
Proof.
  intros He Hq Hp Hr.
  assert (Hq' : exists uq members,
             quota <> "" -> fst (ch_user_quotas user quota c) = Ok (uq, true, members)).
  { destruct (String.eqb_spec quota "") as [->|N].
    - exists [], []. intros H. now elim H.
    - destruct (Hq N) as [uq [members E]]. exists uq, members. intros _. now rewrite E. }
  assert (Hp' : exists up,
             profile <> "" -> fst (ch_user_profiles user profile c) = Ok (up, true)).
  { destruct (String.eqb_spec profile "") as [->|N].
    - exists []. intros H. now elim H.
    - destruct (Hp N) as [up E]. exists up. intros _. now rewrite E. }
  assert (Hr' : exists ur,
             roles <> [] -> fst (ch_user_roles user roles c) = Ok (ur, true)).
  { destruct roles as [|role roles'].
    - exists []. intros H. now elim H.
    - destruct (Hr ltac:(discriminate)) as [ur E]. exists ur. intros _. now rewrite E. }
  destruct Hq' as [uq [members Hq']], Hp' as [up Hp'], Hr' as [ur Hr'].
  assert (He' : fst (ch_user_exists user c) = Ok true) by (unfold user_known in He; now rewrite He).
  pose proof (create_update_user_queries_parts RO user password roles quota profile c
                true uq true members up true ur true He' Hq' Hp' Hr') as Hparts.
  rewrite !andb_false_r in Hparts. cbn [app] in Hparts.
  rewrite (create_update_user_runs _ _ _ _ _ _ _ _ _ Hparts).
  cbn [execute_all]. unfold ret. eexists. reflexivity.
Qed.

(** X13 — Running [create_update_user] twice.  Against a server that
    answers its [SELECT]s without changing, given what it answered to the
    first call, and provided each statement the first call sends does on the
    server what it says (CREATE USER makes the user counted, ALTER QUOTA
    makes the quota apply to the user, ALTER USER assigns the profile, GRANT
    makes the roles held) and undoes none of the other three: after a first
    call that returned, the same call sends no statement, returns unchanged
    and leaves the server as it is. *)
Theorem create_update_user_twice user password roles quota profile c
        ex uq hq members up hp ur hr :
  fst (ch_user_exists user c) = Ok ex ->
  (quota <> "" -> fst (ch_user_quotas user quota c) = Ok (uq, hq, members)) ->
  (profile <> "" -> fst (ch_user_profiles user profile c) = Ok (up, hp)) ->
  (roles <> [] -> fst (ch_user_roles user roles c) = Ok (ur, hr)) ->
  let Pe := user_known user in
  let Pq := fun c' => quota <> "" -> quota_applied user quota c' in
  let Pp := fun c' => profile <> "" -> profile_assigned user profile c' in
  let Pr := fun c' => roles <> [] -> roles_held user roles c' in
  (ex = false -> takes_effect (user_query user password) Pe Pq Pp Pr) ->
  (quota <> "" -> hq = false -> takes_effect (quota_query quota members) Pq Pe Pp Pr) ->
  (profile <> "" -> hp = false -> takes_effect (profile_query user profile) Pp Pe Pq Pr) ->
  (roles <> [] -> hr = false -> takes_effect (roles_query roles user) Pr Pe Pq Pp) ->
  forall r1 c1,
    create_update_user user password roles quota profile c = (Ok r1, c1) ->
    exists st,
      create_update_user user password roles quota profile c1
      = (Ok {| changed := false; run_queries := []; status := st |}, c1).
Proof.
  intros He Hq Hp Hr Pe Pq Pp Pr L1 L2 L3 L4 r1 c1 H1.
  pose proof (create_update_user_queries_parts RO user password roles quota profile c
                ex uq hq members up hp ur hr He Hq Hp Hr) as Hparts.
  rewrite (create_update_user_runs _ _ _ _ _ _ _ _ _ Hparts) in H1.
  match type of H1 with
  | context [execute_all ?l c] => destruct (execute_all l c) as [[[]|e] c2] eqn:X
  end; [|discriminate].
  injection H1 as _ Hc. subst c2.
  apply execute_all_app in X. destruct X as [ca [XA X]].
  apply execute_all_app in X. destruct X as [cb [XB X]].
  apply execute_all_app in X. destruct X as [cc [XC XD]].
  set (condA := negb ex) in *.
  set (condB := negb (String.eqb quota "") && negb hq) in *.
  set (condC := negb (String.eqb profile "") && negb hp) in *.
  set (condD := truthy roles && negb hr) in *.
  replace (if ex then [] else [user_query user password])
    with (if condA then [user_query user password] else []) in XA
    by (unfold condA; now destruct ex).
  (* the law of each stage that was run *)
  assert (LA : condA = true -> takes_effect (user_query user password) Pe Pq Pp Pr).
  { unfold condA. intros H. apply L1. now destruct ex. }
  assert (LB : condB = true -> takes_effect (quota_query quota members) Pq Pe Pp Pr).
  { unfold condB. intros H. apply andb_true_iff in H. destruct H as [Hn Hh].
    apply L2; [|now destruct hq].
    apply negb_true_iff, String.eqb_neq in Hn. exact Hn. }
  assert (LC : condC = true -> takes_effect (profile_query user profile) Pp Pe Pq Pr).
  { unfold condC. intros H. apply andb_true_iff in H. destruct H as [Hn Hh].
    apply L3; [|now destruct hp].
    apply negb_true_iff, String.eqb_neq in Hn. exact Hn. }
  assert (LD : condD = true -> takes_effect (roles_query roles user) Pr Pe Pq Pp).
  { unfold condD. intros H. apply andb_true_iff in H. destruct H as [Hn Hh].
    apply L4; [|now destruct hr].
    destruct roles; [discriminate | discriminate]. }
  (* what held at the start *)
  assert (Ie : condA = false -> Pe c).
  { unfold condA, Pe, user_known. intros H. destruct ex; [|discriminate].
    apply run_eq; [exact He | apply (ch_user_exists_conn RO)]. }
  assert (Iq : condB = false -> Pq c).
  { unfold condB, Pq, quota_applied. intros H N.
    pose proof N as N'. apply String.eqb_neq in N'. rewrite N' in H. cbn in H.
    destruct hq; [|discriminate]. exists uq, members.
    apply run_eq; [exact (Hq N) | apply (ch_user_quotas_conn RO)]. }
  assert (Ip : condC = false -> Pp c).
  { unfold condC, Pp, profile_assigned. intros H N.
    pose proof N as N'. apply String.eqb_neq in N'. rewrite N' in H. cbn in H.
    destruct hp; [|discriminate]. exists up.
    apply run_eq; [exact (Hp N) | apply (ch_user_profiles_conn RO)]. }
  assert (Ir : condD = false -> Pr c).
  { unfold condD, Pr, roles_held. intros H N.
    destruct roles as [|role roles']; [now elim N|]. cbn in H.
    destruct hr; [|discriminate]. exists ur.
    apply run_eq; [exact (Hr N) | apply (ch_user_roles_conn RO)]. }
  (* each of the four holds at the end *)
  assert (Fe : Pe c1).
  { apply (stage_keeps condD _ Pe cc c1 XD); [intros H; apply (LD H)|].
    apply (stage_keeps condC _ Pe cb cc XC); [intros H; apply (LC H)|].
    apply (stage_keeps condB _ Pe ca cb XB); [intros H; apply (LB H)|].
    destruct condA eqn:EA.
    - apply (stage_establishes _ Pe c ca XA). apply (LA eq_refl).
    - cbn in XA. injection XA as <-. now apply Ie. }
  assert (Fq : Pq c1).
  { apply (stage_keeps condD _ Pq cc c1 XD); [intros H; apply (LD H)|].
    apply (stage_keeps condC _ Pq cb cc XC); [intros H; apply (LC H)|].
    destruct condB eqn:EB.
    - apply (stage_establishes _ Pq ca cb XB). apply (LB eq_refl).
    - cbn in XB. injection XB as <-.
      apply (stage_keeps condA _ Pq c ca XA); [intros H; apply (LA H)|]. now apply Iq. }
  assert (Fp : Pp c1).
  { apply (stage_keeps condD _ Pp cc c1 XD); [intros H; apply (LD H)|].
    destruct condC eqn:EC.
    - apply (stage_establishes _ Pp cb cc XC). apply (LC eq_refl).
    - cbn in XC. injection XC as <-.
      apply (stage_keeps condB _ Pp ca cb XB); [intros H; apply (LB H)|].
      apply (stage_keeps condA _ Pp c ca XA); [intros H; apply (LA H)|]. now apply Ip. }
  assert (Fr : Pr c1).
  { destruct condD eqn:ED.
    - apply (stage_establishes _ Pr cc c1 XD). apply (LD eq_refl).
    - cbn in XD. injection XD as <-.
      apply (stage_keeps condC _ Pr cb cc XC); [intros H; apply (LC H)|].
      apply (stage_keeps condB _ Pr ca cb XB); [intros H; apply (LB H)|].
      apply (stage_keeps condA _ Pr c ca XA); [intros H; apply (LA H)|]. now apply Ir. }
  apply create_update_user_nothing_to_do; assumption.
Qed.
End UsersTwice.

(** ** The reference server and the statements of [create_update_user] *)

Section ServerUserLaws.
Import ClickhouseUsers Server.
Variables (user quota profile : string) (roles : list string).
Hypothesis P_exists : parse (user_exists_query user) = Some (SelectUserCount user).
Hypothesis P_quotas : parse (user_quotas_query user) = Some (SelectQuotasOf user).
Hypothesis P_members : parse (quota_has_users_query quota) = Some (SelectQuotaUsers quota).
Hypothesis P_profiles : parse (user_profile_query user) = Some (SelectProfiles user).
Hypothesis P_roles : parse (user_roles_query user) = Some (SelectRoleGrants user).

Lemma server_user_known (c : state) :
  user_known (G := gateway) user c <-> str_in user (users c) = true.
Proof.
  unfold user_known. rewrite (server_ch_user_exists _ _ P_exists). split.
  - intros H. now injection H.
  - intros ->. reflexivity.
Qed.

Lemma server_ch_user_quotas (c : state) :
  exists members,
    ch_user_quotas (G := gateway) user quota c
    = (Ok (map (fun q => VStr (fst q)) (filter (fun q => str_in user (snd q)) (quotas c)),
           str_in_values quota
             (map (fun q => VStr (fst q))
                  (filter (fun q => str_in user (snd q)) (quotas c))),
           members), c).
Proof.
  unfold ch_user_quotas, bind, ret. cbn [execute gateway]. unfold run.
  rewrite P_quotas, P_members.
  replace (is_select (user_quotas_query user)) with true by reflexivity.
  replace (is_select (quota_has_users_query quota)) with true by reflexivity.
  cbn [answer]. rewrite (server_first_column fst).
  destruct (filter (fun q => String.eqb (fst q) quota) (quotas c)) as [|q rest];
    cbn [map truthy]; unfold item0, ret, append_user; cbv beta iota;
    eexists; reflexivity.
Qed.

Lemma server_quota_applied (c : state) :
  quota_applied (G := gateway) user quota c
  <-> exists members, In (quota, members) (quotas c) /\ In user members.
Proof.
  unfold quota_applied. destruct (server_ch_user_quotas c) as [m E]. rewrite E.
  split.
  - intros [uq [members H]]. injection H as _ H _.
    apply str_in_values_In, in_map_iff in H. destruct H as [[q ms] [Eq Hin]].
    apply filter_In in Hin. destruct Hin as [Hin Hu]. cbn [fst snd] in *.
    injection Eq as ->. exists ms. split; [exact Hin | now apply str_in_In].
  - intros [members [Hin Hu]]. do 2 eexists.
    replace (str_in_values quota
               (map (fun q => VStr (fst q))
                    (filter (fun q => str_in user (snd q)) (quotas c))))
      with true; [reflexivity|].
    symmetry. apply str_in_values_In, in_map_iff. exists (quota, members).
    split; [reflexivity|]. apply filter_In. split; [exact Hin | now apply str_in_In].
Qed.

Lemma server_profile_assigned (c : state) :
  profile_assigned (G := gateway) user profile c <-> In (user, profile) (profiles c).
Proof.
  unfold profile_assigned, ch_user_profiles, bind, ret. cbn [execute gateway]. unfold run.
  rewrite P_profiles.
  replace (is_select (user_profile_query user)) with true by reflexivity.
  cbn [answer]. rewrite (server_first_column snd).
  split.
  - intros [up H]. injection H as _ H.
    apply str_in_values_In, in_map_iff in H. destruct H as [[u p] [Ep Hin]].
    apply filter_In in Hin. destruct Hin as [Hin Hu]. cbn [fst snd] in *.
    apply String.eqb_eq in Hu. injection Ep as ->. now subst.
  - intros Hin. eexists.
    replace (str_in_values profile
               (map (fun g => VStr (snd g))
                    (filter (fun g => String.eqb (fst g) user) (profiles c))))
      with true; [reflexivity|].
    symmetry. apply str_in_values_In, in_map_iff. exists (user, profile).
    split; [reflexivity|]. apply filter_In. split; [exact Hin | apply String.eqb_refl].
Qed.

Lemma server_roles_held (c : state) :
  roles_held (G := gateway) user roles c
  <-> forall role, In role roles -> In (user, role) (role_grants c).
Proof.
  unfold roles_held, ch_user_roles, bind, ret. cbn [execute gateway]. unfold run.
  rewrite P_roles.
  replace (is_select (user_roles_query user)) with true by reflexivity.
  cbn [answer]. rewrite (server_first_column snd). fold (held user c).
  split.
  - intros [ur H] role Hr. injection H as _ H.
    rewrite forallb_forall in H. apply held_In, str_in_values_In. auto.
  - intros Hall. eexists.
    replace (forallb (fun role => str_in_values role (held user c)) roles) with true;
      [reflexivity|].
    symmetry. apply forallb_forall. intros role Hr.
    apply str_in_values_In, held_In. auto.
Qed.

Lemma server_write (query : string) (st : statement) (c : state) rows c' :
  parse query = Some st -> is_select query = false ->
  execute (Gateway := gateway) query c = (Ok rows, c') ->
  perform st c = (Ok rows, c').
Proof.
  intros P S. cbn [execute gateway]. unfold run. now rewrite P, S.
Qed.

Let Pe : state -> Prop := user_known (G := gateway) user.
Let Pq : state -> Prop := fun c => quota <> "" -> quota_applied (G := gateway) user quota c.
Let Pp : state -> Prop :=
  fun c => profile <> "" -> profile_assigned (G := gateway) user profile c.
Let Pr : state -> Prop := fun c => roles <> [] -> roles_held (G := gateway) user roles c.

(** A predicate that reads one table is kept by a statement that leaves the
    table as it is. *)
Lemma kept_by_users (c c' : state) : users c' = users c -> Pe c -> Pe c'.
Proof. unfold Pe. rewrite !server_user_known. now intros ->. Qed.

Lemma kept_by_quotas (c c' : state) : quotas c' = quotas c -> Pq c -> Pq c'.
Proof. unfold Pq. intros E H N. apply server_quota_applied. rewrite E.
       apply server_quota_applied. auto. Qed.

Lemma kept_by_profiles (c c' : state) : profiles c' = profiles c -> Pp c -> Pp c'.
Proof. unfold Pp. intros E H N. apply server_profile_assigned. rewrite E.
       apply server_profile_assigned. auto. Qed.

Lemma kept_by_role_grants (c c' : state) : role_grants c' = role_grants c -> Pr c -> Pr c'.
Proof. unfold Pr. intros E H N. apply server_roles_held. rewrite E.
       apply server_roles_held. auto. Qed.

Lemma server_create_user_law password :
  parse (user_query user password) = Some (CreateUser user password) ->
  takes_effect (G := gateway) (user_query user password) Pe Pq Pp Pr.
Proof.
  intros P.
  assert (Hrun : forall (c : state) rows c',
             execute (Gateway := gateway) (user_query user password) c = (Ok rows, c') ->
             c' = with_users c (users c ++ [user])).
  { intros c rows c' Hx. apply (server_write _ _ _ _ _ P eq_refl) in Hx.
    cbn [perform] in Hx. destruct (str_in user (users c)); [discriminate|].
    now injection Hx as _ <-. }
  repeat split; intros c rows c' Hx; rewrite (Hrun c rows c' Hx).
  - apply server_user_known. cbn [users with_users]. apply str_in_In, in_or_app.
    right. now left.
  - now apply kept_by_quotas.
  - now apply kept_by_profiles.
  - now apply kept_by_role_grants.
Qed.

Lemma server_alter_quota_law members listed :
  parse (quota_query quota members) = Some (AlterQuota quota listed) ->
  In user listed ->
  takes_effect (G := gateway) (quota_query quota members) Pq Pe Pp Pr.
Proof.
  intros P Hu.
  assert (Hrun : forall (c : state) rows c',
             execute (Gateway := gateway) (quota_query quota members) c = (Ok rows, c') ->
             str_in quota (map fst (quotas c)) = true
             /\ c' = with_quotas c (map (fun q => if String.eqb (fst q) quota
                                                  then (quota, listed) else q) (quotas c))).
  { intros c rows c' Hx. apply (server_write _ _ _ _ _ P eq_refl) in Hx.
    cbn [perform] in Hx.
    destruct (str_in quota (map fst (quotas c))); [|discriminate].
    destruct (forallb (fun m => is_principal m c) listed); [|discriminate].
    injection Hx as _ <-. auto. }
  repeat split; intros c rows c' Hx; destruct (Hrun c rows c' Hx) as [Hq ->].
  - intros _. apply server_quota_applied. exists listed. split; [|exact Hu].
    cbn [quotas with_quotas]. apply str_in_In, in_map_iff in Hq.
    destruct Hq as [[q ms] [Eq Hin]]. cbn [fst] in Eq. subst q.
    apply in_map_iff. exists (quota, ms). split; [|exact Hin].
    cbn [fst]. now rewrite String.eqb_refl.
  - now apply kept_by_users.
  - now apply kept_by_profiles.
  - now apply kept_by_role_grants.
Qed.

Lemma server_alter_profile_law :
  parse (profile_query user profile) = Some (AlterProfile user profile) ->
  takes_effect (G := gateway) (profile_query user profile) Pp Pe Pq Pr.
Proof.
  intros P.
  assert (Hrun : forall (c : state) rows c',
             execute (Gateway := gateway) (profile_query user profile) c = (Ok rows, c') ->
             c' = with_profiles c (filter (not_of user) (profiles c) ++ [(user, profile)])).
  { intros c rows c' Hx. apply (server_write _ _ _ _ _ P eq_refl) in Hx.
    cbn [perform] in Hx. destruct (str_in user (users c)); [|discriminate].
    now injection Hx as _ <-. }
  repeat split; intros c rows c' Hx; rewrite (Hrun c rows c' Hx).
  - intros _. apply server_profile_assigned. cbn [profiles with_profiles].
    apply in_or_app. right. now left.
  - now apply kept_by_users.
  - now apply kept_by_quotas.
  - now apply kept_by_role_grants.
Qed.

Lemma server_grant_roles_law :
  parse (roles_query roles user) = Some (GrantRoles roles user false) ->
  takes_effect (G := gateway) (roles_query roles user) Pr Pe Pq Pp.
Proof.
  intros P.
  assert (Hrun : forall (c : state) rows c',
             execute (Gateway := gateway) (roles_query roles user) c = (Ok rows, c') ->
             c' = with_role_grants c
                    (add_new pair_eqb (role_grants c) (map (fun r => (user, r)) roles))).
  { intros c rows c' Hx. apply (server_write _ _ _ _ _ P eq_refl) in Hx.
    cbn [perform] in Hx.
    destruct (is_principal user c && forallb (fun r => str_in r (Server.roles c)) roles);
      [|discriminate].
    now injection Hx as _ <-. }
  repeat split; intros c rows c' Hx; rewrite (Hrun c rows c' Hx).
  - intros _. apply server_roles_held. intros role Hr. cbn [role_grants with_role_grants].
    apply add_new_adds; [apply pair_eqb_eq|]. apply in_map_iff. now exists role.
  - now apply kept_by_users.
  - now apply kept_by_quotas.
  - now apply kept_by_profiles.
Qed.
End ServerUserLaws.

Section UsersTwiceOnTheServer.
Import ClickhouseUsers.

Lemma create_update_user_twice_witness :
  read_only Server.gateway
  /\ exists r1 c1 st,
      create_update_user (G := Server.gateway) "carol" "secret" ["reader"] "q1" "p1"
                         Server.sample = (Ok r1, c1)
      /\ List.length (run_queries r1) = 4
      /\ create_update_user (G := Server.gateway) "carol" "secret" ["reader"] "q1" "p1" c1
         = (Ok {| changed := false; run_queries := []; status := st |}, c1).
Proof.
  split; [exact server_read_only|].
  destruct (create_update_user (G := Server.gateway) "carol" "secret" ["reader"] "q1" "p1"
                               Server.sample) as [[r1|e] c1] eqn:E.
  2:{ exfalso. vm_compute in E. discriminate. }
  assert (Hn : List.length (run_queries r1) = 4).
  { vm_compute in E. injection E as <- _. reflexivity. }
  destruct (create_update_user_twice (G := Server.gateway) server_read_only
              "carol" "secret" ["reader"] "q1" "p1" Server.sample
              false [] false ["bob"; "carol"] [] false [] false
              eq_refl (fun _ => eq_refl) (fun _ => eq_refl) (fun _ => eq_refl)
              (fun _ => server_create_user_law "carol" "q1" "p1" ["reader"]
                          eq_refl eq_refl eq_refl eq_refl eq_refl "secret" eq_refl)
              (fun _ _ => server_alter_quota_law "carol" "q1" "p1" ["reader"]
                            eq_refl eq_refl eq_refl eq_refl eq_refl
                            ["bob"; "carol"] ["bob"; "carol"] eq_refl
                            (or_intror (or_introl eq_refl)))
              (fun _ _ => server_alter_profile_law "carol" "q1" "p1" ["reader"]
                            eq_refl eq_refl eq_refl eq_refl eq_refl eq_refl)
              (fun _ _ => server_grant_roles_law "carol" "q1" "p1" ["reader"]
                            eq_refl eq_refl eq_refl eq_refl eq_refl eq_refl)
              r1 c1 E) as [st Hst].
  exists r1, c1, st. auto.
Defined.
End UsersTwiceOnTheServer.
